(** * doodad.launch.launch_api: a shallow embedding and its properties

    The module [launch_api] packages a shell command into one archive and
    hands the archive to a launch mode, once ([run_command]) or once per
    argument set ([run_commands]); [run_python] derives the mount and the
    command for a script file and delegates to one of the two.

    The embedding follows the Python source line by line.  Calls into the
    collaborators ([archive_builder], the launch mode) are threaded through
    an explicit store and every call is recorded, with its outcome, in the
    list of events of the run. *)

From Stdlib Require Import Ascii String.
From stdpp Require Import base option list strings gmap.

Open Scope string_scope.
Open Scope list_scope.

(** ** Python values used by the module *)

(** An exception: its class and its message. *)
Inductive PyExn : Type :=
  | Raised (cls msg : string).

(** Truthiness of a value that is [None] or a [str]: [None] and [''] are
    falsy, every other string is truthy. *)
Definition truthy (v : option string) : bool :=
  match v with
  | None => false
  | Some "" => false
  | Some (String _ _) => true
  end.

(** ** [str] operations *)

(** [p.startswith('/')] *)
Definition startswith_sep (p : string) : bool :=
  match p with
  | String "/"%char _ => true
  | _ => false
  end.

(** [p.endswith('/')] *)
Fixpoint endswith_sep (p : string) : bool :=
  match p with
  | "" => false
  | String c "" => if Ascii.eqb c "/"%char then true else false
  | String _ rest => endswith_sep rest
  end.

(** [p == '/' * len(p)] *)
Fixpoint all_sep (p : string) : bool :=
  match p with
  | "" => true
  | String c rest => if Ascii.eqb c "/"%char then all_sep rest else false
  end.

(** [p.rstrip('/')] *)
Fixpoint rstrip_sep (p : string) : string :=
  match p with
  | "" => ""
  | String c rest =>
      match rstrip_sep rest with
      | "" => if Ascii.eqb c "/"%char then "" else String c ""
      | rest' => String c rest'
      end
  end.

(** [(p[:i], p[i:])] for [i = p.rfind('/') + 1]: the part of [p] up to and
    including its last slash, and the part after it. *)
Fixpoint rsplit_sep (p : string) : string * string :=
  match p with
  | "" => ("", "")
  | String c rest =>
      match rsplit_sep rest with
      | ("", tail) =>
          if Ascii.eqb c "/"%char then (String c "", tail) else ("", String c tail)
      | (head, tail) => (String c head, tail)
      end
  end.

(** ** [os.path] (posixpath) *)

Module os_path.

(** [i = p.rfind(sep) + 1; head = p[:i];
     if head and head != sep*len(head): head = head.rstrip(sep);
     return head] *)
Definition dirname (p : string) : string :=
  let head := (rsplit_sep p).1 in
  if truthy (Some head) && negb (all_sep head) then rstrip_sep head else head.

(** [i = p.rfind(sep) + 1; return p[i:]] *)
Definition basename (p : string) : string :=
  (rsplit_sep p).2.

(** [join(a, b)]: [if b.startswith(sep): path = b
     elif not path or path.endswith(sep): path += b
     else: path += sep + b] *)
Definition join (a b : string) : string :=
  if startswith_sep b then b
  else if negb (truthy (Some a)) || endswith_sep a then a +:+ b
  else a +:+ "/" +:+ b.

End os_path.

(** ** The [%] operator of [str] *)

(** [fmt % args] for the directives [%s] and [%%], with [args] already
    converted by [str()].  Too few or too many arguments raise [TypeError];
    the other directives are outside the model and raise [ValueError]. *)
Fixpoint py_format (fmt : string) (args : list string) : PyExn + string :=
  match fmt with
  | "" =>
      match args with
      | [] => inr ""
      | _ :: _ =>
          inl (Raised "TypeError"
                 "not all arguments converted during string formatting")
      end
  | String "%"%char (String "s"%char rest) =>
      match args with
      | a :: args' =>
          match py_format rest args' with
          | inr out => inr (a +:+ out)
          | inl e => inl e
          end
      | [] => inl (Raised "TypeError" "not enough arguments for format string")
      end
  | String "%"%char (String "%"%char rest) =>
      match py_format rest args with
      | inr out => inr (String "%"%char out)
      | inl e => inl e
      end
  | String "%"%char _ => inl (Raised "ValueError" "unsupported format character")
  | String c rest =>
      match py_format rest args with
      | inr out => inr (String c out)
      | inl e => inl e
      end
  end.


(** The characters of a value that is [None] or a [str]; only used where the
    value is known to be a [str]. *)
Definition text (v : option string) : string :=
  match v with
  | Some s => s
  | None => ""
  end.

(** ** Mounts *)

(** Modelled from the spec: the class [mount.MountLocal] is not part of the
    sources at hand.  The spec describes a mount as a value with two
    attributes, a local directory and the path it is bound to inside the
    archive; [MountLocal(local_dir=d, mount_point=m)] builds that value and
    [.mount_point] reads the second attribute back. *)
Record Mount : Type := MountLocal {
  local_dir : string;
  mount_point : string
}.

(** ** Store, events and the monad of the embedding *)

(** Python sequences of mounts are objects: a caller and a callee that hold
    the same reference see the same items. *)
Definition loc : Type := positive.

(** What the collaborators act on: the paths that exist on the file system
    and whatever else they keep ([Env]). *)
Record Ext (Env : Type) : Type := MkExt {
  fs : gset string;
  env : Env
}.
Arguments MkExt {Env} _ _.
Arguments fs {Env} _.
Arguments env {Env} _.

Record Store (Env : Type) : Type := MkStore {
  heap : gmap loc (list Mount);
  ext : Ext Env
}.
Arguments MkStore {Env} _ _.
Arguments heap {Env} _.
Arguments ext {Env} _.

(** One entry per call into a collaborator, with the arguments passed and
    what the call returned or raised. *)
Inductive Event : Type :=
  | EvTempEnter (r : PyExn + string)
  | EvBuild (archive_filename payload_script : string) (verbose : bool)
            (docker_image : string) (mounts : list Mount) (r : PyExn + string)
  | EvRunScript (cmd : string) (return_output verbose : bool)
                (r : PyExn + option string)
  | EvTempExit (archive_filename : string).

Record Outcome (Env A : Type) : Type := MkOutcome {
  final : Store Env;
  events : list Event;
  result : PyExn + A
}.
Arguments MkOutcome {Env A} _ _ _.
Arguments final {Env A} _.
Arguments events {Env A} _.
Arguments result {Env A} _.

Definition M (Env A : Type) : Type := Store Env -> Outcome Env A.

Definition ret {Env A} (a : A) : M Env A :=
  fun s => MkOutcome s [] (inr a).

Definition raise {Env A} (e : PyExn) : M Env A :=
  fun s => MkOutcome s [] (inl e).

Definition bind {Env A B} (c : M Env A) (k : A -> M Env B) : M Env B :=
  fun s =>
    let o := c s in
    match result o with
    | inl e => MkOutcome (final o) (events o) (inl e)
    | inr a =>
        let o' := k a (final o) in
        MkOutcome (final o') (events o ++ events o') (result o')
    end.

Notation "x <- c ;; k" := (bind c (fun x => k))
  (at level 100, c at next level, right associativity).

(** [try: body finally: cleanup], for a cleanup that cannot raise: the
    cleanup runs however the body ends and the body's result or exception
    is passed on unchanged. *)
Definition finally {Env A} (body : M Env A) (cleanup : M Env unit) : M Env A :=
  fun s =>
    let o := body s in
    let o' := cleanup (final o) in
    MkOutcome (final o') (events o ++ events o') (result o).

(** A call into a collaborator: it acts on [Ext] only and the call is
    recorded with its outcome. *)
Definition call {Env A} (f : Ext Env -> Ext Env * (PyExn + A))
    (ev : PyExn + A -> Event) : M Env A :=
  fun s =>
    let xr := f (ext s) in
    MkOutcome (MkStore (heap s) xr.1) [ev xr.2] xr.2.

(** The items of the sequence behind a reference. *)
Definition items {Env} (s : Store Env) (l : loc) : list Mount :=
  default [] (heap s !! l).

(** A new list object. *)
Definition py_list_new {Env} (xs : list Mount) : M Env loc :=
  fun s =>
    let l := fresh (dom (heap s)) in
    MkOutcome (MkStore (<[l := xs]> (heap s)) (ext s)) [] (inr l).

(** [list(seq)]: a new list with the items of [seq]. *)
Definition py_list {Env} (seq : loc) : M Env loc :=
  fun s => py_list_new (items s seq) s.

(** [a + b] on lists: a new list, [a] and [b] are left as they are. *)
Definition py_list_add {Env} (a b : loc) : M Env loc :=
  fun s => py_list_new (items s a ++ items s b) s.

(** ** The collaborators *)

(** A launch mode is used through one method,
    [run_script(cmd, return_output=..., verbose=...)]. *)
Record LaunchMode (Env : Type) : Type := MkLaunchMode {
  run_script : string -> bool -> bool -> Ext Env -> Ext Env * (PyExn + option string)
}.
Arguments MkLaunchMode {Env} _.
Arguments run_script {Env} _ _ _ _ _.

(** The module [archive_builder_docker] and the default launch mode
    [launch_mode.LocalMode()] are not part of the sources at hand; they are
    parameters of the development.  [build_archive] takes its arguments in
    the order [archive_filename], [payload_script], [verbose],
    [docker_image], [mounts] and returns the path of the archive;
    [_strip_stdout] is a function of its argument alone.
    [temp_archive_file_enter] is what entering [temp_archive_file()]
    does: it yields the path of the scope or raises. *)
Class Collaborators (Env : Type) : Type := {
  temp_archive_file_enter : Ext Env -> Ext Env * (PyExn + string);
  build_archive :
    string -> string -> bool -> string -> list Mount ->
    Ext Env -> Ext Env * (PyExn + string);
  _strip_stdout : option string -> option string;
  LocalMode : LaunchMode Env
}.

(** Modelled from the spec: leaving the scope of
    [archive_builder.temp_archive_file()], which is not part of the sources
    at hand.  The spec says of the scoped location that it guarantees
    deletion of any file at that path when the scope exits, regardless of
    how it exits; nothing else changes. *)
Definition temp_archive_file_exit {Env} (archive_file : string)
    (x : Ext Env) : Ext Env :=
  MkExt (fs x ∖ {[archive_file]}) (env x).

(** ** [launch_api] *)

(** [make_python_command(target, python_cmd='python')]:
    [cmd = '%s %s' % (python_cmd, target); return cmd].  It takes no store:
    the function reads and writes nothing but its arguments. *)
Definition make_python_command (target python_cmd : string) : PyExn + string :=
  py_format "%s %s" [python_cmd; target].

(** The keyword arguments that [run_python] passes on: the parameters of
    [run_command] and [run_commands] other than [command], [docker_image]
    and [mounts].  [None] is a key that is not given, for which the callee
    uses its default. *)
Record Kwargs (Mode Args : Type) : Type := MkKwargs {
  kw_cli_args : option Args;
  kw_mode : option Mode;
  kw_return_output : option bool;
  kw_verbose : option bool
}.
Arguments MkKwargs {Mode Args} _ _ _ _.
Arguments kw_cli_args {Mode Args} _.
Arguments kw_mode {Mode Args} _.
Arguments kw_return_output {Mode Args} _.
Arguments kw_verbose {Mode Args} _.

(** [cli_args] is a list of argument sets for [run_commands] and one
    argument set for [run_command]; so are the results. *)
Definition cli_args_of (run_multiple : bool) : Type :=
  if run_multiple then list (option string) else option string.

Definition result_of (run_multiple : bool) : Type :=
  if run_multiple then list (option string) else option string.

Section launch_api.
Context {Env : Type} `{!Collaborators Env}.

Definition lift {A} (r : PyExn + A) : M Env A :=
  match r with
  | inl e => raise e
  | inr a => ret a
  end.

Definition leave_temp_archive_file (archive_file : string) : M Env unit :=
  fun s =>
    MkOutcome (MkStore (heap s) (temp_archive_file_exit archive_file (ext s)))
              [EvTempExit archive_file] (inr tt).

(** [with archive_builder.temp_archive_file() as archive_file: body] *)
Definition with_temp_archive_file {A} (body : string -> M Env A) : M Env A :=
  archive_file <- call temp_archive_file_enter EvTempEnter ;;
  finally (body archive_file) (leave_temp_archive_file archive_file).

(** [archive_builder.build_archive(archive_filename=..., payload_script=...,
     verbose=..., docker_image=..., mounts=...)]: the builder reads the
    items of [mounts] as they are at the call. *)
Definition call_build_archive (archive_filename payload_script : string)
    (verbose : bool) (docker_image : string) (mounts : loc) : M Env string :=
  fun s =>
    call (build_archive archive_filename payload_script verbose docker_image
                        (items s mounts))
         (EvBuild archive_filename payload_script verbose docker_image
                  (items s mounts)) s.

(** [mode.run_script(cmd, return_output=return_output, verbose=verbose)] *)
Definition call_run_script (mode : LaunchMode Env) (cmd : string)
    (return_output verbose : bool) : M Env (option string) :=
  call (run_script mode cmd return_output verbose)
       (EvRunScript cmd return_output verbose).

Definition run_command (command : string) (cli_args : option string)
    (mode : LaunchMode Env) (mounts : loc) (return_output verbose : bool)
    (docker_image : string) : M Env (option string) :=
  result <- with_temp_archive_file (fun archive_file =>
    archive <- call_build_archive archive_file command false docker_image mounts ;;
    let cmd := archive in
    let cmd := if truthy cli_args
               then archive +:+ " -- " +:+ text cli_args
               else cmd in
    call_run_script mode cmd return_output verbose) ;;
  let result := if return_output then _strip_stdout result else result in
  ret result.

(** The [for cli_arg in cli_args] loop of [run_commands]; [cmd] and
    [results] are the variables it updates. *)
Fixpoint dispatch_loop (mode : LaunchMode Env) (return_output verbose : bool)
    (archive : string) (cli_args : list (option string))
    (cmd : string) (results : list (option string))
    : M Env (list (option string)) :=
  match cli_args with
  | [] => ret results
  | cli_arg :: cli_args' =>
      let cmd := if truthy cli_arg
                 then archive +:+ " -- " +:+ text cli_arg
                 else cmd in
      r <- call_run_script mode cmd return_output verbose ;;
      dispatch_loop mode return_output verbose archive cli_args' cmd
                    (results ++ [r])
  end.

Definition run_commands (command : string) (cli_args : list (option string))
    (mode : LaunchMode Env) (mounts : loc) (return_output verbose : bool)
    (docker_image : string) : M Env (list (option string)) :=
  let results := [] in
  results <- with_temp_archive_file (fun archive_file =>
    archive <- call_build_archive archive_file command false docker_image mounts ;;
    let cmd := archive in
    dispatch_loop mode return_output verbose archive cli_args cmd results) ;;
  let results := if return_output
                 then map _strip_stdout results
                 else results in
  ret results.

(** [run_command(command, docker_image=docker_image, mounts=mounts, **kwargs)]
    with the defaults of [run_command] for the keys that are not given. *)
Definition run_command_kwargs (command docker_image : string) (mounts : loc)
    (kwargs : Kwargs (LaunchMode Env) (option string)) : M Env (option string) :=
  run_command command
              (default None (kw_cli_args kwargs))
              (default LocalMode (kw_mode kwargs))
              mounts
              (default false (kw_return_output kwargs))
              (default false (kw_verbose kwargs))
              docker_image.

(** [run_commands(command, docker_image=docker_image, mounts=mounts, **kwargs)]
    with the defaults of [run_commands] for the keys that are not given. *)
Definition run_commands_kwargs (command docker_image : string) (mounts : loc)
    (kwargs : Kwargs (LaunchMode Env) (list (option string)))
    : M Env (list (option string)) :=
  run_commands command
               (default [None] (kw_cli_args kwargs))
               (default LocalMode (kw_mode kwargs))
               mounts
               (default false (kw_return_output kwargs))
               (default false (kw_verbose kwargs))
               docker_image.

Definition run_python (target target_mount_dir : string) (mounts : loc)
    (docker_image : string) (run_multiple : bool)
    (kwargs : Kwargs (LaunchMode Env) (cli_args_of run_multiple))
    : M Env (result_of run_multiple) :=
  let target_dir := os_path.dirname target in
  let target_mount_dir :=
    os_path.join target_mount_dir (os_path.basename target_dir) in
  let target_mount := MountLocal target_dir target_mount_dir in
  copied <- py_list mounts ;;
  single <- py_list_new [target_mount] ;;
  mounts <- py_list_add copied single ;;
  let target_full_path :=
    os_path.join (mount_point target_mount) (os_path.basename target) in
  command <- lift (make_python_command target_full_path "python") ;;
  (if run_multiple as b
      return Kwargs (LaunchMode Env) (cli_args_of b) -> M Env (result_of b)
   then fun kwargs => run_commands_kwargs command docker_image mounts kwargs
   else fun kwargs => run_command_kwargs command docker_image mounts kwargs)
    kwargs.

End launch_api.

(** ** Reading the events of a run *)

(** The command lines handed to [run_script], in the order of the calls. *)
Definition dispatched (evs : list Event) : list string :=
  omap (fun ev => match ev with
                  | EvRunScript cmd _ _ _ => Some cmd
                  | _ => None
                  end) evs.

(** What the calls of [run_script] returned or raised, in the order of the
    calls. *)
Definition dispatch_results (evs : list Event) : list (PyExn + option string) :=
  omap (fun ev => match ev with
                  | EvRunScript _ _ _ r => Some r
                  | _ => None
                  end) evs.

Definition is_build (ev : Event) : bool :=
  match ev with
  | EvBuild _ _ _ _ _ _ => true
  | _ => false
  end.

(** The calls of [build_archive]. *)
Definition builds (evs : list Event) : list Event :=
  List.filter is_build evs.

(** The archive returned by the first call of [build_archive] that
    returned. *)
Definition built (evs : list Event) : option string :=
  head (omap (fun ev => match ev with
                        | EvBuild _ _ _ _ _ (inr archive) => Some archive
                        | _ => None
                        end) evs).

(** The temporary path of the run: what entering [temp_archive_file()]
    yielded. *)
Definition temp_path (evs : list Event) : option string :=
  match evs with
  | EvTempEnter (inr archive_file) :: _ => Some archive_file
  | _ => None
  end.

(** The events of dispatching [lines] with the outcomes [rs]. *)
Definition run_script_events (return_output verbose : bool)
    (lines : list string) (rs : list (PyExn + option string)) : list Event :=
  zip_with (fun cmd r => EvRunScript cmd return_output verbose r) lines rs.

(** The composition rule of the batch in the spec's words: an entry that
    holds a non-empty argument string forms artifact path, [" -- "] and the
    entry; an empty or absent entry reuses the command line most recently
    formed. *)
Fixpoint spec_command_lines (artifact recent : string)
    (batch : list (option string)) : list string :=
  match batch with
  | [] => []
  | Some (String c rest) :: batch' =>
      let line := artifact +:+ " -- " +:+ String c rest in
      line :: spec_command_lines artifact line batch'
  | _ :: batch' => recent :: spec_command_lines artifact recent batch'
  end.

(** ** Concrete collaborators, for running the embedding *)

Module Demo.

(** The environment counts the dispatches made so far. *)
Definition Env : Type := nat.

(** A builder that keeps its archives at one temporary path and strips a
    framing marker of one character. *)
#[export] Instance collaborators : Collaborators Env := {|
  temp_archive_file_enter x :=
    (MkExt ({["/tmp/doodad.dar"]} ∪ fs x) (env x), inr "/tmp/doodad.dar");
  build_archive archive_filename payload_script verbose docker_image mounts x :=
    (MkExt ({[archive_filename]} ∪ fs x) (env x), inr archive_filename);
  _strip_stdout out :=
    match out with
    | Some (String _ rest) => Some rest
    | other => other
    end;
  LocalMode :=
    MkLaunchMode (fun cmd return_output verbose x =>
      (MkExt (fs x) (S (env x)),
       inr (if return_output then Some ("#" +:+ cmd) else None)))
|}.

(** A launch mode whose every dispatch fails. *)
Definition FailingMode : LaunchMode Env :=
  MkLaunchMode (fun cmd return_output verbose x =>
    (MkExt (fs x) (S (env x)), inl (Raised "CalledProcessError" cmd))).

(** A launch mode whose dispatch number [n] (from 0) fails. *)
Definition FailsAt (n : nat) : LaunchMode Env :=
  MkLaunchMode (fun cmd return_output verbose x =>
    (MkExt (fs x) (S (env x)),
     if Nat.eqb (env x) n
     then inl (Raised "CalledProcessError" cmd)
     else inr (if return_output then Some ("#" +:+ cmd) else None))).

(** A store with one list of mounts, at reference 1. *)
Definition store0 : Store Env :=
  MkStore {[ 1%positive := [MountLocal "/data" "data"] ]} (MkExt ∅ 0).

Definition no_kwargs {Args} : Kwargs (LaunchMode Env) Args :=
  MkKwargs None None None None.

(** A batch with empty entries before and after non-empty ones. *)
Definition batch : list (option string) :=
  [None; Some "a b"; None; Some ""; Some "c"].

End Demo.

(** ** Further readings of a batch, a run and a path *)

(** The arguments of the last entry of a batch that holds a non-empty
    argument string, if there is one. *)
Fixpoint last_nonempty (batch : list (option string)) : option string :=
  match batch with
  | [] => None
  | entry :: batch' =>
      match last_nonempty batch' with
      | Some args => Some args
      | None => if truthy entry then Some (text entry) else None
      end
  end.

(** An entry with the empty string replaced by [None]. *)
Definition blank_as_none (entry : option string) : option string :=
  if truthy entry then entry else None.

(** The flags recorded with an event: a dispatch carries [return_output]
    and [verbose], a build carries [verbose = False]. *)
Definition flags_ok (return_output verbose : bool) (ev : Event) : Prop :=
  match ev with
  | EvBuild _ _ build_verbose _ _ _ => build_verbose = false
  | EvRunScript _ ro v _ => ro = return_output /\ v = verbose
  | _ => True
  end.

(** [p] has no slash. *)
Fixpoint no_sep (p : string) : bool :=
  match p with
  | "" => true
  | String c rest => if Ascii.eqb c "/"%char then false else no_sep rest
  end.

(** A separator as [os.path.join] puts it between two components: a slash
    or nothing. *)
Definition is_joint (sep : string) : Prop := sep = "" \/ sep = "/".

(** ** Collaborators that fail before the first dispatch *)

Module DemoFailures.

(** A builder whose [build_archive] always raises. *)
Definition broken_builder : Collaborators Demo.Env := {|
  temp_archive_file_enter x :=
    (MkExt ({["/tmp/doodad.dar"]} ∪ fs x) (env x), inr "/tmp/doodad.dar");
  build_archive archive_filename payload_script verbose docker_image mounts x :=
    (x, inl (Raised "OSError" archive_filename));
  _strip_stdout out := out;
  LocalMode := @LocalMode _ Demo.collaborators
|}.

(** A builder whose [temp_archive_file()] cannot be entered. *)
Definition no_temp : Collaborators Demo.Env := {|
  temp_archive_file_enter x := (x, inl (Raised "OSError" "no temporary file"));
  build_archive archive_filename payload_script verbose docker_image mounts x :=
    (x, inr archive_filename);
  _strip_stdout out := out;
  LocalMode := @LocalMode _ Demo.collaborators
|}.

End DemoFailures.

(** ** A launch mode that returns output without being asked *)


(** * Properties *)

(** ** Strings, paths and formatting *)

Lemma append_empty_r (s : string) : s +:+ "" = s.
Proof.
  induction s as [|c s IH]; [reflexivity|].
  change (String c (s +:+ "") = String c s). by rewrite IH.
Qed.

Lemma truthy_false (v : option string) :
  truthy v = false <-> v = None \/ v = Some "".
Proof.
  destruct v as [[|c rest]|]; simpl; split; intros Hv; auto;
    try discriminate; destruct Hv as [Hv|Hv]; discriminate.
Qed.

(** ** The composition rule on its own *)

Lemma spec_command_lines_cons artifact recent entry batch :
  spec_command_lines artifact recent (entry :: batch) =
  let line := if truthy entry
              then artifact +:+ " -- " +:+ text entry
              else recent in
  line :: spec_command_lines artifact line batch.
Proof. destruct entry as [[|c rest]|]; reflexivity. Qed.

Lemma spec_command_lines_length artifact recent batch :
  length (spec_command_lines artifact recent batch) = length batch.
Proof.
  revert recent; induction batch as [|entry batch IH]; intros recent.
  - reflexivity.
  - rewrite spec_command_lines_cons; simpl. by rewrite IH.
Qed.

(** Entry [i] of the lines: formed from a non-empty entry, or the line
    before it ([recent] for the first entry). *)
Lemma spec_command_lines_lookup artifact recent batch i line :
  spec_command_lines artifact recent batch !! i = Some line ->
  exists entry,
    batch !! i = Some entry /\
    line = if truthy entry
           then artifact +:+ " -- " +:+ text entry
           else match i with
                | O => recent
                | S j => default recent
                           (spec_command_lines artifact recent batch !! j)
                end.
Proof.
  revert recent i; induction batch as [|entry batch IH]; intros recent i.
  - destruct i; discriminate.
  - rewrite spec_command_lines_cons. cbv zeta.
    destruct i as [|i]; simpl.
    + intros [= <-]. exists entry. done.
    + intros Hi. destruct (IH _ _ Hi) as (entry' & Hentry' & Hline).
      exists entry'. split; [done|].
      rewrite Hline. destruct (truthy entry'); [done|].
      destruct i as [|j]; [done|]. simpl.
      destruct (spec_command_lines _ _ batch !! j) eqn:Hj; [done|].
      apply lookup_ge_None in Hj. apply lookup_lt_Some in Hi. lia.
Qed.

(** ** Events of a sequence of dispatches *)

Lemma run_script_events_nil_r ro v lines :
  run_script_events ro v lines [] = [].
Proof. by destruct lines. Qed.

Lemma dispatched_run_script_events ro v lines rs :
  dispatched (run_script_events ro v lines rs) = take (length rs) lines.
Proof.
  revert rs; induction lines as [|c lines IH]; intros [|r rs]; simpl; try done.
  f_equal. apply IH.
Qed.

Lemma dispatch_results_run_script_events ro v lines rs :
  length rs <= length lines ->
  dispatch_results (run_script_events ro v lines rs) = rs.
Proof.
  revert rs; induction lines as [|c lines IH]; intros [|r rs]; simpl; try done.
  - lia.
  - intros Hlen. f_equal. apply IH. lia.
Qed.

Lemma builds_run_script_events ro v lines rs :
  builds (run_script_events ro v lines rs) = [].
Proof.
  revert rs; induction lines as [|c lines IH]; intros [|r rs]; simpl; done.
Qed.

Lemma dispatched_app evs1 evs2 :
  dispatched (evs1 ++ evs2) = dispatched evs1 ++ dispatched evs2.
Proof. apply omap_app. Qed.

Lemma dispatch_results_app evs1 evs2 :
  dispatch_results (evs1 ++ evs2) =
  dispatch_results evs1 ++ dispatch_results evs2.
Proof. apply omap_app. Qed.

Section proofs.
Context {Env : Type} `{!Collaborators Env}.

Implicit Types (mode : LaunchMode Env) (s : Store Env).

(** *** The loop of [run_commands] *)

Lemma dispatch_loop_cons mode ro v archive entry rest cmd results s :
  dispatch_loop mode ro v archive (entry :: rest) cmd results s =
  let cmd' := if truthy entry
              then archive +:+ " -- " +:+ text entry
              else cmd in
  let xr := run_script mode cmd' ro v (ext s) in
  match xr.2 with
  | inl e =>
      MkOutcome (MkStore (heap s) xr.1) [EvRunScript cmd' ro v (inl e)] (inl e)
  | inr r =>
      let o := dispatch_loop mode ro v archive rest cmd' (results ++ [r])
                             (MkStore (heap s) xr.1) in
      MkOutcome (final o) (EvRunScript cmd' ro v (inr r) :: events o) (result o)
  end.
Proof.
  cbv zeta. simpl. unfold bind, call_run_script, call. simpl.
  destruct (run_script mode _ ro v (ext s)) as [x [e|r]]; reflexivity.
Qed.

(** What a run of the loop looks like: the command lines follow the
    composition rule, the outcomes are successes followed, when the loop
    is left by an exception, by the one failure that ended it. *)
Lemma dispatch_loop_outcome mode ro v archive cli_args cmd results s :
  let o := dispatch_loop mode ro v archive cli_args cmd results s in
  exists rs,
    events o = run_script_events ro v
                 (spec_command_lines archive cmd cli_args) rs /\
    length rs <= length cli_args /\
    heap (final o) = heap s /\
    match result o with
    | inr out =>
        exists outs, rs = inr <$> outs /\ length outs = length cli_args /\
                     out = results ++ outs
    | inl e =>
        exists outs, rs = (inr <$> outs) ++ [inl e]
    end.
Proof.
  revert cmd results s.
  induction cli_args as [|entry rest IH]; intros cmd results s.
  - exists []. simpl. split; [done|]. split; [lia|]. split; [done|].
    exists []. by rewrite app_nil_r.
  - rewrite dispatch_loop_cons, spec_command_lines_cons. cbv zeta.
    set (cmd' := if truthy entry then _ else _).
    destruct (run_script mode cmd' ro v (ext s)) as [x [e|r]]; simpl.
    + exists [inl e]. rewrite run_script_events_nil_r.
      split; [done|]. split; [simpl; lia|]. split; [done|].
      by exists [].
    + destruct (IH cmd' (results ++ [r]) (MkStore (heap s) x))
        as (rs & Hev & Hlen & Hheap & Hres).
      exists (inr r :: rs). simpl. rewrite Hev.
      split; [done|]. split; [lia|]. split; [done|].
      destruct (result _) as [e|out].
      * destruct Hres as (outs & ->). by exists (r :: outs).
      * destruct Hres as (outs & -> & Hlen' & ->).
        exists (r :: outs). simpl. rewrite Hlen', <- app_assoc. done.
Qed.

(** *** The scope of the temporary archive *)

Lemma with_temp_archive_file_outcome {A} (body : string -> M Env A) s :
  with_temp_archive_file body s =
  let xr := temp_archive_file_enter (ext s) in
  match xr.2 with
  | inl e => MkOutcome (MkStore (heap s) xr.1) [EvTempEnter (inl e)] (inl e)
  | inr archive_file =>
      let o := body archive_file (MkStore (heap s) xr.1) in
      MkOutcome
        (MkStore (heap (final o))
                 (temp_archive_file_exit archive_file (ext (final o))))
        (EvTempEnter (inr archive_file)
           :: (events o ++ [EvTempExit archive_file]))
        (result o)
  end.
Proof.
  unfold with_temp_archive_file, bind, call, finally, leave_temp_archive_file.
  simpl. destruct (temp_archive_file_enter (ext s)) as [x [e|p]]; simpl.
  - reflexivity.
  - destruct (result _); reflexivity.
Qed.

Lemma temp_archive_file_exit_removes (archive_file : string) (x : Ext Env) :
  archive_file ∉ fs (temp_archive_file_exit archive_file x).
Proof.
  unfold temp_archive_file_exit. simpl.
  intros [_ Hne]%elem_of_difference. apply Hne. by apply elem_of_singleton.
Qed.

(** *** The three ways a call of [run_commands] can go *)

Lemma run_commands_outcome command cli_args mode mounts ro v image s :
  let o := run_commands command cli_args mode mounts ro v image s in
  heap (final o) = heap s /\
  ((exists e, events o = [EvTempEnter (inl e)] /\ result o = inl e)
   \/ (exists archive_file e,
         events o = [EvTempEnter (inr archive_file);
                     EvBuild archive_file command false image
                             (items s mounts) (inl e);
                     EvTempExit archive_file] /\
         result o = inl e /\
         archive_file ∉ fs (ext (final o)))
   \/ (exists archive_file archive rs,
         events o = EvTempEnter (inr archive_file)
                      :: EvBuild archive_file command false image
                                 (items s mounts) (inr archive)
                      :: (run_script_events ro v
                            (spec_command_lines archive archive cli_args) rs
                          ++ [EvTempExit archive_file]) /\
         length rs <= length cli_args /\
         (archive_file ∉ fs (ext (final o))) /\
         match result o with
         | inr out =>
             exists outs,
               rs = inr <$> outs /\ length outs = length cli_args /\
               out = if ro then map _strip_stdout outs else outs
         | inl e => exists outs, rs = (inr <$> outs) ++ [inl e]
         end)).
Proof.
  cbv zeta. unfold run_commands, bind.
  rewrite with_temp_archive_file_outcome. cbv zeta.
  destruct (temp_archive_file_enter (ext s)) as [x1 [e|archive_file]]; simpl.
  { split; [done|]. left. by exists e. }
  unfold bind, call_build_archive, call. simpl.
  change (items (MkStore (heap s) x1) mounts) with (items s mounts).
  destruct (build_archive archive_file command false image (items s mounts) x1)
    as [x2 [e|archive]]; simpl.
  { split; [done|]. right; left. exists archive_file, e.
    split; [done|]. split; [done|]. apply temp_archive_file_exit_removes. }
  destruct (dispatch_loop_outcome mode ro v archive cli_args archive []
                                  (MkStore (heap s) x2))
    as (rs & Hev & Hlen & Hheap & Hres).
  destruct (result (dispatch_loop _ _ _ _ _ _ _ _)) as [e|out] eqn:Hr; simpl.
  - split; [done|]. right; right. exists archive_file, archive, rs.
    rewrite Hev. split; [done|]. split; [done|].
    split; [apply temp_archive_file_exit_removes|]. done.
  - split; [done|]. right; right. exists archive_file, archive, rs.
    rewrite Hev, app_nil_r. split; [done|]. split; [done|].
    split; [apply temp_archive_file_exit_removes|].
    destruct Hres as (outs & -> & Hlen' & ->). by exists outs.
Qed.

(** *** The three ways a call of [run_command] can go *)

Lemma run_command_outcome command cli_args mode mounts ro v image s :
  let o := run_command command cli_args mode mounts ro v image s in
  heap (final o) = heap s /\
  ((exists e, events o = [EvTempEnter (inl e)] /\ result o = inl e)
   \/ (exists archive_file e,
         events o = [EvTempEnter (inr archive_file);
                     EvBuild archive_file command false image
                             (items s mounts) (inl e);
                     EvTempExit archive_file] /\
         result o = inl e /\
         archive_file ∉ fs (ext (final o)))
   \/ (exists archive_file archive x r,
         let cmd := if truthy cli_args
                    then archive +:+ " -- " +:+ text cli_args
                    else archive in
         events o = [EvTempEnter (inr archive_file);
                     EvBuild archive_file command false image
                             (items s mounts) (inr archive);
                     EvRunScript cmd ro v r;
                     EvTempExit archive_file] /\
         r = (run_script mode cmd ro v x).2 /\
         (archive_file ∉ fs (ext (final o))) /\
         result o = match r with
                    | inl e => inl e
                    | inr out => inr (if ro then _strip_stdout out else out)
                    end)).
Proof.
  cbv zeta. unfold run_command, bind.
  rewrite with_temp_archive_file_outcome. cbv zeta.
  destruct (temp_archive_file_enter (ext s)) as [x1 [e|archive_file]]; simpl.
  { split; [done|]. left. by exists e. }
  unfold bind, call_build_archive, call_run_script, call. simpl.
  change (items (MkStore (heap s) x1) mounts) with (items s mounts).
  destruct (build_archive archive_file command false image (items s mounts) x1)
    as [x2 [e|archive]]; simpl.
  { split; [done|]. right; left. exists archive_file, e.
    split; [done|]. split; [done|]. apply temp_archive_file_exit_removes. }
  set (cmd := if truthy cli_args then _ else _).
  destruct (run_script mode cmd ro v x2) as [x3 r] eqn:Hcall. simpl.
  split; [by destruct r|]. right; right.
  exists archive_file, archive, x2, r. cbv zeta. fold cmd. rewrite Hcall.
  destruct r as [e|out]; simpl;
    (split; [done|]; split; [done|];
     split; [apply temp_archive_file_exit_removes | done]).
Qed.

(** *** The two functions, statement by statement *)

Lemma run_command_unfold command cli_args mode mounts ro v image s :
  run_command command cli_args mode mounts ro v image s =
  let xr := temp_archive_file_enter (ext s) in
  match xr.2 with
  | inl e => MkOutcome (MkStore (heap s) xr.1) [EvTempEnter (inl e)] (inl e)
  | inr p =>
      let br := build_archive p command false image (items s mounts) xr.1 in
      match br.2 with
      | inl e =>
          MkOutcome (MkStore (heap s) (temp_archive_file_exit p br.1))
                    [EvTempEnter (inr p);
                     EvBuild p command false image (items s mounts) (inl e);
                     EvTempExit p]
                    (inl e)
      | inr archive =>
          let cmd := if truthy cli_args
                     then archive +:+ " -- " +:+ text cli_args
                     else archive in
          let rr := run_script mode cmd ro v br.1 in
          MkOutcome (MkStore (heap s) (temp_archive_file_exit p rr.1))
                    [EvTempEnter (inr p);
                     EvBuild p command false image (items s mounts)
                             (inr archive);
                     EvRunScript cmd ro v rr.2;
                     EvTempExit p]
                    match rr.2 with
                    | inl e => inl e
                    | inr out => inr (if ro then _strip_stdout out else out)
                    end
      end
  end.
Proof.
  unfold run_command, bind.
  rewrite with_temp_archive_file_outcome. cbv zeta.
  destruct (temp_archive_file_enter (ext s)) as [x1 [e|p]]; simpl; [done|].
  unfold bind, call_build_archive, call_run_script, call. simpl.
  change (items (MkStore (heap s) x1) mounts) with (items s mounts).
  destruct (build_archive p command false image (items s mounts) x1)
    as [x2 [e|archive]]; simpl; [done|].
  destruct (run_script mode _ ro v x2) as [x3 [e|out]]; reflexivity.
Qed.

Lemma run_commands_unfold command cli_args mode mounts ro v image s :
  run_commands command cli_args mode mounts ro v image s =
  let xr := temp_archive_file_enter (ext s) in
  match xr.2 with
  | inl e => MkOutcome (MkStore (heap s) xr.1) [EvTempEnter (inl e)] (inl e)
  | inr p =>
      let br := build_archive p command false image (items s mounts) xr.1 in
      match br.2 with
      | inl e =>
          MkOutcome (MkStore (heap s) (temp_archive_file_exit p br.1))
                    [EvTempEnter (inr p);
                     EvBuild p command false image (items s mounts) (inl e);
                     EvTempExit p]
                    (inl e)
      | inr archive =>
          let ol := dispatch_loop mode ro v archive cli_args archive []
                                  (MkStore (heap s) br.1) in
          MkOutcome (MkStore (heap (final ol))
                             (temp_archive_file_exit p (ext (final ol))))
                    (EvTempEnter (inr p)
                       :: EvBuild p command false image (items s mounts)
                                  (inr archive)
                       :: (events ol ++ [EvTempExit p]))
                    match result ol with
                    | inl e => inl e
                    | inr outs =>
                        inr (if ro then map _strip_stdout outs else outs)
                    end
      end
  end.
Proof.
  unfold run_commands, bind.
  rewrite with_temp_archive_file_outcome. cbv zeta.
  destruct (temp_archive_file_enter (ext s)) as [x1 [e|p]]; simpl; [done|].
  unfold bind, call_build_archive, call. simpl.
  change (items (MkStore (heap s) x1) mounts) with (items s mounts).
  destruct (build_archive p command false image (items s mounts) x1)
    as [x2 [e|archive]]; simpl; [done|].
  destruct (result (dispatch_loop _ _ _ _ _ _ _ _)) as [e|outs]; simpl.
  - reflexivity.
  - by rewrite app_nil_r.
Qed.


(** *** The command lines of [run_commands] *)

(** The command lines dispatched by a call that built its archive are
    the first lines that the composition rule gives for the batch. *)
Lemma run_commands_dispatched command cli_args mode mounts ro v image s archive :
  let o := run_commands command cli_args mode mounts ro v image s in
  built (events o) = Some archive ->
  exists n,
    n <= length cli_args /\
    dispatched (events o) =
      take n (spec_command_lines archive archive cli_args).
Proof.
  cbv zeta. intros Hbuilt.
  destruct (run_commands_outcome command cli_args mode mounts ro v image s)
    as [_ [(e & Hev & _) | [(p & e & Hev & _) | (p & a & rs & Hev & Hlen & _)]]];
    rewrite Hev in Hbuilt |- *; simpl in Hbuilt; try discriminate.
  injection Hbuilt as ->.
  exists (length rs). split; [done|].
  change (dispatched (run_script_events ro v
            (spec_command_lines archive archive cli_args) rs
          ++ [EvTempExit p]) = take (length rs)
            (spec_command_lines archive archive cli_args)).
  rewrite dispatched_app, dispatched_run_script_events. simpl.
  by rewrite app_nil_r.
Qed.

(** C1. In [run_commands], an entry that holds a non-empty argument
    string is dispatched with the archive path, [" -- "] and the entry;
    an entry that is empty or [None] is dispatched with the command line
    most recently formed: that of the dispatch before it, and, for the
    first entry, the bare archive path. *)
Theorem run_commands_composition_rule
    command cli_args mode mounts ro v image s archive i line :
  let o := run_commands command cli_args mode mounts ro v image s in
  built (events o) = Some archive ->
  dispatched (events o) !! i = Some line ->
  exists entry,
    cli_args !! i = Some entry /\
    match entry with
    | Some (String c rest) => line = archive +:+ " -- " +:+ String c rest
    | _ =>
        match i with
        | O => line = archive
        | S j => dispatched (events o) !! j = Some line
        end
    end.
Proof.
  cbv zeta. intros Hbuilt Hline.
  destruct (run_commands_dispatched _ _ _ _ _ _ _ _ _ Hbuilt)
    as (n & Hn & Hd).
  rewrite Hd in Hline |- *. clear Hd.
  apply lookup_take_Some in Hline as [Hline Hi].
  destruct (spec_command_lines_lookup _ _ _ _ _ Hline)
    as (entry & Hentry & Hrule).
  exists entry. split; [done|].
  assert (Hprev : forall j, i = S j ->
            take n (spec_command_lines archive archive cli_args) !! j =
            Some (default archive
                    (spec_command_lines archive archive cli_args !! j))).
  { intros j ->. rewrite lookup_take_lt by lia.
    destruct (spec_command_lines _ _ _ !! j) eqn:Hj; [done|].
    apply lookup_ge_None in Hj. apply lookup_lt_Some in Hline. lia. }
  destruct entry as [[|c rest]|]; simpl in Hrule.
  - destruct i as [|j]; [done|]. rewrite (Hprev j eq_refl). by rewrite Hrule.
  - done.
  - destruct i as [|j]; [done|]. rewrite (Hprev j eq_refl). by rewrite Hrule.
Qed.

Lemma spec_command_lines_bare artifact recent batch i line :
  spec_command_lines artifact recent batch !! i = Some line ->
  (forall j entry, j <= i -> batch !! j = Some entry -> truthy entry = false) ->
  line = recent.
Proof.
  revert i; induction batch as [|entry batch IH]; intros i.
  - destruct i; discriminate.
  - rewrite spec_command_lines_cons. cbv zeta. intros Hline Hfalsy.
    rewrite (Hfalsy 0 entry) in Hline by (done || lia).
    destruct i as [|i]; simpl in Hline.
    + by injection Hline.
    + apply (IH i Hline). intros j entry' Hj Hentry'.
      apply (Hfalsy (S j) entry'); [lia | done].
Qed.

(** C10. In [run_commands], an entry that is empty or [None] and has no
    non-empty entry before it is dispatched with the bare archive path. *)
Theorem run_commands_leading_empty_entries
    command cli_args mode mounts ro v image s archive i line :
  let o := run_commands command cli_args mode mounts ro v image s in
  built (events o) = Some archive ->
  dispatched (events o) !! i = Some line ->
  (forall j entry, j <= i -> cli_args !! j = Some entry ->
                   entry = None \/ entry = Some "") ->
  line = archive.
Proof.
  cbv zeta. intros Hbuilt Hline Hempty.
  destruct (run_commands_dispatched _ _ _ _ _ _ _ _ _ Hbuilt)
    as (n & Hn & Hd).
  rewrite Hd in Hline. apply lookup_take_Some in Hline as [Hline _].
  apply (spec_command_lines_bare _ _ _ _ _ Hline).
  intros j entry Hj Hentry. apply truthy_false. eauto.
Qed.

(** *** Calls made and results returned *)


(** C3. A call of [run_command] whose archive is built calls
    [build_archive] once and [run_script] of the launch mode once, in the
    state the build left; the command line is the archive path alone when
    [cli_args] is [None] or empty, and the archive path, [" -- "] and
    [cli_args] when [cli_args] is a non-empty string. *)
Theorem run_command_one_build_one_dispatch
    command cli_args mode mounts ro v image s archive :
  let o := run_command command cli_args mode mounts ro v image s in
  let line := match cli_args with
              | Some (String c rest) => archive +:+ " -- " +:+ String c rest
              | _ => archive
              end in
  built (events o) = Some archive ->
  exists archive_file x,
    x = (build_archive archive_file command false image (items s mounts)
                       (temp_archive_file_enter (ext s)).1).1 /\
    events o =
      [EvTempEnter (inr archive_file);
       EvBuild archive_file command false image (items s mounts)
               (inr archive);
       EvRunScript line ro v (run_script mode line ro v x).2;
       EvTempExit archive_file] /\
    length (builds (events o)) = 1 /\
    length (dispatched (events o)) = 1.
Proof.
  cbv zeta. rewrite run_command_unfold. cbv zeta.
  destruct (temp_archive_file_enter (ext s)) as [x1 [e|p]]; simpl;
    [discriminate|].
  destruct (build_archive p command false image (items s mounts) x1)
    as [x2 [e|a]] eqn:Hbuild; simpl; [discriminate|].
  intros [= ->]. exists p, x2. rewrite Hbuild. simpl.
  split; [done|]. split; [|done].
  by destruct cli_args as [[|c rest]|].
Qed.

(** What [run_command] returns, for any launch mode: the value of
    [run_script], passed through [_strip_stdout] when [return_output] is
    set and as it is otherwise. *)
Lemma run_command_returns command cli_args mode mounts ro v image s returned :
  let o := run_command command cli_args mode mounts ro v image s in
  result o = inr returned <->
  exists out,
    dispatch_results (events o) = [inr out] /\
    returned = if ro then _strip_stdout out else out.
Proof.
  cbv zeta.
  pose proof (run_command_outcome command cli_args mode mounts ro v image s)
    as Hout.
  cbv zeta in Hout.
  destruct Hout
    as [_ [(e & Hev & Hr) | [(p & e & Hev & Hr & _)
                            | (p & a & x & r & Hev & _ & _ & Hr)]]];
    rewrite Hev, Hr; simpl.
  - split; [discriminate | by intros (out & ? & _)].
  - split; [discriminate | by intros (out & ? & _)].
  - destruct r as [e|out].
    + split; [discriminate | by intros (out & [= ] & _)].
    + split.
      * intros [= <-]. by exists out.
      * by intros (out' & [= <-] & ->).
Qed.


(** *** Failures *)

(** C7. In [run_commands], when the call of [run_script] for an entry
    raises, the caller gets that very exception, and no result list; the
    failed dispatch is the last one made. *)
Theorem run_commands_failure_propagates
    command cli_args mode mounts ro v image s i e :
  let o := run_commands command cli_args mode mounts ro v image s in
  dispatch_results (events o) !! i = Some (inl e) ->
  result o = inl e /\
  length (dispatch_results (events o)) = S i /\
  length (dispatched (events o)) = S i.
Proof.
  cbv zeta. intros Hfail.
  destruct (run_commands_outcome command cli_args mode mounts ro v image s)
    as [_ [(e' & Hev & _) | [(p & e' & Hev & _)
                            | (p & a & rs & Hev & Hlen & _ & Hout)]]];
    rewrite Hev in Hfail |- *; try discriminate.
  assert (Hlines : length rs <= length (spec_command_lines a a cli_args))
    by (rewrite spec_command_lines_length; lia).
  change (dispatch_results (run_script_events ro v
            (spec_command_lines a a cli_args) rs ++ [EvTempExit p]) !! i =
          Some (inl e)) in Hfail.
  change (result (run_commands command cli_args mode mounts ro v image s) =
            inl e /\
          length (dispatch_results (run_script_events ro v
            (spec_command_lines a a cli_args) rs ++ [EvTempExit p])) = S i /\
          length (dispatched (run_script_events ro v
            (spec_command_lines a a cli_args) rs ++ [EvTempExit p])) = S i).
  rewrite dispatch_results_app, dispatch_results_run_script_events in Hfail |- *
    by done.
  rewrite dispatched_app, dispatched_run_script_events.
  simpl in Hfail |- *. rewrite !app_nil_r in *. rewrite length_take.
  destruct (result _) as [e'|out].
  - destruct Hout as (outs & ->).
    apply lookup_snoc_Some in Hfail as [[_ Hfail] | [Hi [= ->]]].
    + rewrite list_lookup_fmap in Hfail.
      destruct (outs !! i); discriminate.
    + rewrite length_fmap in Hi. subst i.
      rewrite length_app, length_fmap in Hlines |- *. simpl in *.
      split; [done|]. lia.
  - destruct Hout as (outs & -> & _).
    rewrite list_lookup_fmap in Hfail. destruct (outs !! i); discriminate.
Qed.

(** C6. The temporary path of a call of [run_command] or [run_commands]
    does not exist when the call is over, whether it returned or raised
    what [build_archive] or [run_script] raised. *)
Theorem temp_archive_file_released
    command cli_arg cli_args mode mounts ro v image s archive_file :
  let o1 := run_command command cli_arg mode mounts ro v image s in
  let o2 := run_commands command cli_args mode mounts ro v image s in
  (temp_path (events o1) = Some archive_file ->
   archive_file ∉ fs (ext (final o1))) /\
  (temp_path (events o2) = Some archive_file ->
   archive_file ∉ fs (ext (final o2))).
Proof.
  cbv zeta. split; intros Hpath.
  - destruct (run_command_outcome command cli_arg mode mounts ro v image s)
      as [_ [(e & Hev & _) | [(p & e & Hev & _ & Hgone)
                             | (p & a & x & r & Hev & _ & Hgone & _)]]];
      rewrite Hev in Hpath; simpl in Hpath; try discriminate;
      by injection Hpath as <-.
  - destruct (run_commands_outcome command cli_args mode mounts ro v image s)
      as [_ [(e & Hev & _) | [(p & e & Hev & _ & Hgone)
                             | (p & a & rs & Hev & _ & Hgone & _)]]];
      rewrite Hev in Hpath; simpl in Hpath; try discriminate;
      by injection Hpath as <-.
Qed.

(** *** [run_python] *)

Lemma outcome_eta {A} (o : Outcome Env A) :
  MkOutcome (final o) (events o) (result o) = o.
Proof. by destruct o. Qed.

(** [run_python] makes three new lists, the last of which holds the
    caller's mounts and the derived mount, and calls [run_commands] or
    [run_command] with it; no list that existed before is changed. *)
Lemma run_python_outcome target target_mount_dir mounts image s :
  let target_dir := os_path.dirname target in
  let mount_dir := os_path.join target_mount_dir (os_path.basename target_dir) in
  let command := "python" +:+ " " +:+
                 os_path.join mount_dir (os_path.basename target) in
  exists mounts' s',
    (mounts' ∉ dom (heap s)) /\
    heap s' !! mounts' =
      Some (items s mounts ++ [MountLocal target_dir mount_dir]) /\
    (forall l xs, heap s !! l = Some xs -> heap s' !! l = Some xs) /\
    ext s' = ext s /\
    (forall kwargs,
        run_python target target_mount_dir mounts image true kwargs s =
        run_commands_kwargs command image mounts' kwargs s') /\
    (forall kwargs,
        run_python target target_mount_dir mounts image false kwargs s =
        run_command_kwargs command image mounts' kwargs s').
Proof.
  cbv zeta.
  set (target_dir := os_path.dirname target).
  set (mount_dir := os_path.join target_mount_dir (os_path.basename target_dir)).
  set (tm := MountLocal target_dir mount_dir).
  set (h1 := <[fresh (dom (heap s)) := items s mounts]> (heap s)).
  set (h2 := <[fresh (dom h1) := [tm]]> h1).
  set (h3 := <[fresh (dom h2) := items s mounts ++ [tm]]> h2).
  pose proof (is_fresh (dom (heap s))) as Hf1.
  pose proof (is_fresh (dom h1)) as Hf2.
  pose proof (is_fresh (dom h2)) as Hf3.
  assert (Hin1 : forall l, l ∈ dom (heap s) -> l ∈ dom h1).
  { intros l Hl. unfold h1. rewrite dom_insert_L.
    apply elem_of_union. by right. }
  assert (Hin2 : forall l, l ∈ dom h1 -> l ∈ dom h2).
  { intros l Hl. unfold h2. rewrite dom_insert_L.
    apply elem_of_union. by right. }
  assert (Hl12 : fresh (dom h1) ≠ fresh (dom (heap s))).
  { intros Heq. apply Hf2. rewrite Heq. unfold h1.
    rewrite dom_insert_L. apply elem_of_union. left.
    by apply elem_of_singleton. }
  assert (Hsub : forall l xs, heap s !! l = Some xs -> h3 !! l = Some xs).
  { intros l xs Hl.
    assert (Hd : l ∈ dom (heap s)) by (apply elem_of_dom; eauto).
    unfold h3. rewrite lookup_insert_ne
      by (intros Heq; apply Hf3; rewrite Heq; auto).
    unfold h2. rewrite lookup_insert_ne
      by (intros Heq; apply Hf2; rewrite Heq; auto).
    unfold h1. rewrite lookup_insert_ne
      by (intros Heq; apply Hf1; rewrite Heq; auto).
    done. }
  exists (fresh (dom h2)), (MkStore h3 (ext s)).
  split. { intros Hin. apply Hf3. auto. }
  split. { simpl. unfold h3. by rewrite lookup_insert_eq. }
  split; [exact Hsub|]. split; [done|].
  assert (Hitems1 : items (MkStore h2 (ext s)) (fresh (dom (heap s))) =
                    items s mounts).
  { unfold items at 1. simpl. unfold h2, h1.
    rewrite lookup_insert_ne by done. by rewrite lookup_insert_eq. }
  assert (Hitems2 : items (MkStore h2 (ext s)) (fresh (dom h1)) = [tm]).
  { unfold items. simpl. unfold h2. by rewrite lookup_insert_eq. }
  split; intros kwargs.
  - unfold run_python, bind, py_list, py_list_add, py_list_new. simpl.
    fold target_dir mount_dir tm h1 h2.
    rewrite Hitems1, Hitems2. fold h3.
    rewrite append_empty_r. apply outcome_eta.
  - unfold run_python, bind, py_list, py_list_add, py_list_new. simpl.
    fold target_dir mount_dir tm h1 h2.
    rewrite Hitems1, Hitems2. fold h3.
    rewrite append_empty_r. apply outcome_eta.
Qed.

Lemma run_commands_builds command cli_args mode mounts ro v image s :
  let o := run_commands command cli_args mode mounts ro v image s in
  builds (events o) = [] \/
  exists archive_file r,
    builds (events o) =
      [EvBuild archive_file command false image (items s mounts) r].
Proof.
  cbv zeta.
  destruct (run_commands_outcome command cli_args mode mounts ro v image s)
    as [_ [(e & Hev & _) | [(p & e & Hev & _) | (p & a & rs & Hev & _)]]];
    rewrite Hev.
  - by left.
  - right. by exists p, (inl e).
  - right. exists p, (inr a). unfold builds. simpl.
    rewrite List.filter_app. simpl.
    fold (builds (run_script_events ro v (spec_command_lines a a cli_args) rs)).
    by rewrite builds_run_script_events.
Qed.


(** When the scope is entered, [run_python] makes one call of
    [build_archive], at the path of the scope, with the derived command and
    the caller's mounts followed by the derived mount. *)
Lemma run_python_builds_entered
    target target_mount_dir mounts image run_multiple kwargs s archive_file :
  let target_dir := os_path.dirname target in
  let mount_dir := os_path.join target_mount_dir (os_path.basename target_dir) in
  let derived := MountLocal target_dir mount_dir in
  let command := "python" +:+ " " +:+
                 os_path.join mount_dir (os_path.basename target) in
  let o := run_python target target_mount_dir mounts image
                      run_multiple kwargs s in
  let entered := temp_archive_file_enter (ext s) in
  entered.2 = inr archive_file ->
  builds (events o) =
    [EvBuild archive_file command false image (items s mounts ++ [derived])
             (build_archive archive_file command false image
                            (items s mounts ++ [derived]) entered.1).2].
Proof.
  cbv zeta. intros Henter.
  destruct (run_python_outcome target target_mount_dir mounts image s)
    as (mounts' & s' & _ & Hnew & _ & Hext & Hmany & Hone).
  assert (Hitems : items s' mounts' =
            items s mounts ++
            [MountLocal (os_path.dirname target)
               (os_path.join target_mount_dir
                  (os_path.basename (os_path.dirname target)))]).
  { unfold items at 1. by rewrite Hnew. }
  rewrite <- Hitems, <- Hext in *.
  destruct run_multiple.
  - rewrite Hmany. unfold run_commands_kwargs.
    cbn [result_of cli_args_of] in *.
    rewrite run_commands_unfold. cbv zeta. rewrite Henter.
    destruct (build_archive archive_file _ false image _ _)
      as [x2 [e|archive]]; simpl; [done|].
    match goal with
    | |- context [dispatch_loop ?m ?ro ?v ?a ?args ?c ?rs ?st] =>
        destruct (dispatch_loop_outcome m ro v a args c rs st)
          as (rs' & -> & _)
    end.
    unfold builds. simpl. rewrite List.filter_app. simpl.
    match goal with
    | |- context [List.filter is_build (run_script_events ?ro ?v ?l ?r)] =>
        change (List.filter is_build (run_script_events ro v l r))
          with (builds (run_script_events ro v l r));
        rewrite builds_run_script_events
    end.
    done.
  - rewrite Hone. unfold run_command_kwargs.
    cbn [result_of cli_args_of] in *.
    rewrite run_command_unfold. cbv zeta. rewrite Henter.
    destruct (build_archive archive_file _ false image _ _)
      as [x2 [e|archive]]; simpl; done.
Qed.

(** C5. [run_python] binds the directory of the script to
    [target_mount_dir] joined with the base name of that directory, puts
    that mount after the caller's mounts in a new list, makes the command
    of the interpreter and the mount point joined with the base name of the
    script, and calls [run_commands] when [run_multiple] is set and
    [run_command] otherwise, with the keyword arguments passed on and the
    callee's defaults for those not given; once the scope is entered the
    archive is built from that command and those mounts.  For
    [/home/user/proj/hello.py] and [target] the mount binds
    [/home/user/proj] to [target/proj] and the command names
    [target/proj/hello.py]. *)
Theorem run_python_derives_mount_and_delegates
    target target_mount_dir mounts image s :
  let target_dir := os_path.dirname target in
  let mount_dir := os_path.join target_mount_dir (os_path.basename target_dir) in
  let derived := MountLocal target_dir mount_dir in
  let command := "python" +:+ " " +:+
                 os_path.join mount_dir (os_path.basename target) in
  let entered := temp_archive_file_enter (ext s) in
  (exists mounts' s',
      (mounts' ∉ dom (heap s)) /\
      heap s' !! mounts' = Some (items s mounts ++ [derived]) /\
      (forall l xs, heap s !! l = Some xs -> heap s' !! l = Some xs) /\
      ext s' = ext s /\
      (forall kwargs : Kwargs (LaunchMode Env) (list (option string)),
          run_python target target_mount_dir mounts image true kwargs s =
          run_commands command
                       (default [None] (kw_cli_args kwargs))
                       (default LocalMode (kw_mode kwargs))
                       mounts'
                       (default false (kw_return_output kwargs))
                       (default false (kw_verbose kwargs))
                       image s') /\
      (forall kwargs : Kwargs (LaunchMode Env) (option string),
          run_python target target_mount_dir mounts image false kwargs s =
          run_command command
                      (default None (kw_cli_args kwargs))
                      (default LocalMode (kw_mode kwargs))
                      mounts'
                      (default false (kw_return_output kwargs))
                      (default false (kw_verbose kwargs))
                      image s')) /\
  (forall run_multiple kwargs archive_file,
      let o := run_python target target_mount_dir mounts image
                          run_multiple kwargs s in
      entered.2 = inr archive_file ->
      builds (events o) =
        [EvBuild archive_file command false image (items s mounts ++ [derived])
                 (build_archive archive_file command false image
                                (items s mounts ++ [derived]) entered.1).2]) /\
  (os_path.dirname "/home/user/proj/hello.py" = "/home/user/proj" /\
   os_path.join "target" (os_path.basename "/home/user/proj") = "target/proj" /\
   "python" +:+ " " +:+
     os_path.join "target/proj" (os_path.basename "/home/user/proj/hello.py") =
   "python target/proj/hello.py").
Proof.
  cbv zeta.
  destruct (run_python_outcome target target_mount_dir mounts image s)
    as (mounts' & s' & Hfresh & Hnew & Hkeep & Hext & Hmany & Hone).
  split; [|split; [|done]].
  - exists mounts', s'. split; [done|].
    split; [done|]. split; [done|]. split; [done|]. split.
    + intros kwargs. exact (Hmany kwargs).
    + intros kwargs. exact (Hone kwargs).
  - intros run_multiple kwargs archive_file Henter.
    by apply run_python_builds_entered.
Qed.

(** C8. [make_python_command] returns the interpreter command, a space
    and the target, for all inputs; it never raises, and it neither reads
    nor changes the store and makes no call. *)
Theorem make_python_command_format target python_cmd :
  make_python_command target python_cmd =
    inr (python_cmd +:+ " " +:+ target) /\
  forall s : Store Env,
    lift (make_python_command target python_cmd) s =
    MkOutcome s [] (inr (python_cmd +:+ " " +:+ target)).
Proof.
  assert (Hfmt : make_python_command target python_cmd =
                 inr (python_cmd +:+ " " +:+ target)).
  { unfold make_python_command. simpl. by rewrite append_empty_r. }
  split; [exact Hfmt|]. intros s. by rewrite Hfmt.
Qed.

(** C9. [run_python] leaves the caller's sequence of mounts as it was:
    the mounts handed on are a new list, made of the caller's mounts and
    the derived mount, and every list that existed before the call holds
    the same items after it. *)
Theorem run_python_keeps_caller_mounts
    target target_mount_dir mounts image run_multiple kwargs s ms :
  let o := run_python target target_mount_dir mounts image
                      run_multiple kwargs s in
  let target_dir := os_path.dirname target in
  let derived :=
    MountLocal target_dir
      (os_path.join target_mount_dir (os_path.basename target_dir)) in
  heap s !! mounts = Some ms ->
  heap (final o) !! mounts = Some ms /\
  (forall l xs, heap s !! l = Some xs -> heap (final o) !! l = Some xs) /\
  exists mounts',
    mounts' <> mounts /\
    heap (final o) !! mounts' = Some (ms ++ [derived]).
Proof.
  cbv zeta. intros Hms.
  destruct (run_python_outcome target target_mount_dir mounts image s)
    as (mounts' & s' & Hfresh & Hnew & Hkeep & _ & Hmany & Hone).
  assert (Hheap : heap (final (run_python target target_mount_dir mounts
                                 image run_multiple kwargs s)) = heap s').
  { destruct run_multiple.
    - rewrite Hmany. apply run_commands_outcome.
    - rewrite Hone. apply run_command_outcome. }
  rewrite Hheap. split; [by apply Hkeep|]. split; [exact Hkeep|].
  exists mounts'. split.
  - intros ->. apply Hfresh. apply elem_of_dom. eauto.
  - rewrite Hnew. unfold items. by rewrite Hms.
Qed.

End proofs.

(** * Further properties of [launch_api] *)

Section more_proofs.
Context {Env : Type} `{!Collaborators Env}.

Implicit Types (mode : LaunchMode Env) (s : Store Env).

(** ** One entry, no entry, blank entries *)

(** X1. [run_commands] on a batch of one entry makes the calls of
    [run_command] on that entry, leaves the same store, and returns the
    result of [run_command] in a list of one item (or raises what
    [run_command] raises). *)
Theorem run_commands_singleton command cli_arg mode mounts ro v image s :
  let o1 := run_command command cli_arg mode mounts ro v image s in
  let oN := run_commands command [cli_arg] mode mounts ro v image s in
  events oN = events o1 /\
  final oN = final o1 /\
  result oN = match result o1 with
              | inl e => inl e
              | inr r => inr [r]
              end.
Proof.
  cbv zeta. rewrite run_command_unfold, run_commands_unfold. cbv zeta.
  destruct (temp_archive_file_enter (ext s)) as [x1 [e|p]]; simpl; [done|].
  destruct (build_archive p command false image (items s mounts) x1)
    as [x2 [e|archive]]; simpl; [done|].
  unfold bind, call_run_script, call. simpl.
  destruct (run_script mode _ ro v x2) as [x3 [e|out]]; simpl; [done|].
  by destruct ro.
Qed.

(** X2. [run_commands] on an empty batch makes no dispatch; when the
    archive is built it has still entered the scope, built the archive and
    left the scope, and it returns the empty list. *)
Theorem run_commands_empty_batch command mode mounts ro v image s :
  let o := run_commands command [] mode mounts ro v image s in
  dispatched (events o) = [] /\
  forall archive,
    built (events o) = Some archive ->
    result o = inr [] /\
    exists archive_file,
      events o = [EvTempEnter (inr archive_file);
                  EvBuild archive_file command false image (items s mounts)
                          (inr archive);
                  EvTempExit archive_file].
Proof.
  cbv zeta. rewrite run_commands_unfold. cbv zeta.
  destruct (temp_archive_file_enter (ext s)) as [x1 [e|p]]; simpl.
  { split; [done|]. intros archive. discriminate. }
  destruct (build_archive p command false image (items s mounts) x1)
    as [x2 [e|archive]]; simpl.
  { split; [done|]. intros archive. discriminate. }
  split; [done|]. intros archive' [= <-].
  split; [by destruct ro|]. by exists p.
Qed.

Lemma truthy_blank_as_none entry : truthy (blank_as_none entry) = truthy entry.
Proof. by destruct entry as [[|c rest]|]. Qed.

Lemma blank_as_none_truthy entry :
  truthy entry = true -> blank_as_none entry = entry.
Proof. unfold blank_as_none. by intros ->. Qed.

Lemma dispatch_loop_blank mode ro v archive cli_args cmd results s :
  dispatch_loop mode ro v archive (blank_as_none <$> cli_args) cmd results s =
  dispatch_loop mode ro v archive cli_args cmd results s.
Proof.
  revert cmd results s.
  induction cli_args as [|entry rest IH]; intros cmd results s; [done|].
  rewrite fmap_cons, !dispatch_loop_cons. cbv zeta.
  rewrite truthy_blank_as_none.
  destruct (truthy entry) eqn:Hentry.
  - rewrite (blank_as_none_truthy _ Hentry).
    destruct (run_script mode _ ro v (ext s)) as [x [e|r]]; simpl; [done|].
    by rewrite IH.
  - destruct (run_script mode _ ro v (ext s)) as [x [e|r]]; simpl; [done|].
    by rewrite IH.
Qed.

(** X3. An entry that is the empty string counts as an entry that is
    [None]: replacing the one by the other, in [cli_args] of [run_command]
    or in any place of the batch of [run_commands], changes nothing of the
    run. *)
Theorem blank_entries_are_absent
    command cli_arg cli_args mode mounts ro v image s :
  run_command command (blank_as_none cli_arg) mode mounts ro v image s =
  run_command command cli_arg mode mounts ro v image s /\
  run_commands command (blank_as_none <$> cli_args) mode mounts ro v image s =
  run_commands command cli_args mode mounts ro v image s.
Proof.
  split.
  - rewrite !run_command_unfold. cbv zeta.
    rewrite truthy_blank_as_none.
    destruct (truthy cli_arg) eqn:Hentry; [|done].
    by rewrite (blank_as_none_truthy _ Hentry).
  - rewrite !run_commands_unfold. cbv zeta.
    destruct (temp_archive_file_enter (ext s)) as [x1 [e|p]]; simpl; [done|].
    destruct (build_archive p command false image (items s mounts) x1)
      as [x2 [e|archive]]; simpl; [done|].
    by rewrite dispatch_loop_blank.
Qed.

(** ** Failures before the first dispatch *)

(** X4. When [build_archive] raises, in [run_command] and in
    [run_commands], the caller gets that exception, no dispatch is made, and
    leaving the scope is the last thing done. *)
Theorem build_failure_propagates
    command cli_arg cli_args mode mounts ro v image s e :
  let o1 := run_command command cli_arg mode mounts ro v image s in
  let o2 := run_commands command cli_args mode mounts ro v image s in
  (forall f c vb img ms,
      EvBuild f c vb img ms (inl e) ∈ events o1 ->
      result o1 = inl e /\ dispatched (events o1) = [] /\
      last (events o1) = Some (EvTempExit f)) /\
  (forall f c vb img ms,
      EvBuild f c vb img ms (inl e) ∈ events o2 ->
      result o2 = inl e /\ dispatched (events o2) = [] /\
      last (events o2) = Some (EvTempExit f)).
Proof.
  cbv zeta. split; intros f c vb img ms Hin.
  - rewrite run_command_unfold in Hin |- *. cbv zeta in Hin |- *.
    destruct (temp_archive_file_enter (ext s)) as [x1 [e'|p]]; simpl in *.
    { apply list_elem_of_singleton in Hin. discriminate. }
    destruct (build_archive p command false image (items s mounts) x1)
      as [x2 [e'|archive]]; simpl in *.
    + repeat (apply elem_of_cons in Hin as [Hin|Hin]; try discriminate).
      * by injection Hin as -> -> -> -> -> ->.
      * by apply elem_of_nil in Hin.
    + repeat (apply elem_of_cons in Hin as [Hin|Hin]; try discriminate).
      by apply elem_of_nil in Hin.
  - rewrite run_commands_unfold in Hin |- *. cbv zeta in Hin |- *.
    destruct (temp_archive_file_enter (ext s)) as [x1 [e'|p]]; simpl in *.
    { apply list_elem_of_singleton in Hin. discriminate. }
    destruct (build_archive p command false image (items s mounts) x1)
      as [x2 [e'|archive]]; simpl in *.
    + repeat (apply elem_of_cons in Hin as [Hin|Hin]; try discriminate).
      * by injection Hin as -> -> -> -> -> ->.
      * by apply elem_of_nil in Hin.
    + exfalso.
      destruct (dispatch_loop_outcome mode ro v archive cli_args archive []
                                      (MkStore (heap s) x2))
        as (rs & Hev & _).
      rewrite Hev in Hin.
      repeat (apply elem_of_cons in Hin as [Hin|Hin]; try discriminate).
      apply elem_of_app in Hin as [Hin|Hin].
      * unfold run_script_events in Hin.
        apply elem_of_lookup_zip_with in Hin as (i & line & r & Heq & _).
        discriminate.
      * apply list_elem_of_singleton in Hin. discriminate.
Qed.

(** X5. When entering [temp_archive_file()] raises, in [run_command] and
    in [run_commands], the caller gets that exception and nothing else is
    done: no build, no dispatch, and the scope is not left. *)
Theorem enter_failure_stops
    command cli_arg cli_args mode mounts ro v image s e :
  let o1 := run_command command cli_arg mode mounts ro v image s in
  let o2 := run_commands command cli_args mode mounts ro v image s in
  (events o1 !! 0 = Some (EvTempEnter (inl e)) ->
   events o1 = [EvTempEnter (inl e)] /\ result o1 = inl e /\
   heap (final o1) = heap s) /\
  (events o2 !! 0 = Some (EvTempEnter (inl e)) ->
   events o2 = [EvTempEnter (inl e)] /\ result o2 = inl e /\
   heap (final o2) = heap s).
Proof.
  cbv zeta. split.
  - rewrite run_command_unfold. cbv zeta.
    destruct (temp_archive_file_enter (ext s)) as [x1 [e'|p]]; simpl.
    + by intros [= ->].
    + destruct (build_archive p command false image (items s mounts) x1)
        as [x2 [e'|archive]]; simpl; discriminate.
  - rewrite run_commands_unfold. cbv zeta.
    destruct (temp_archive_file_enter (ext s)) as [x1 [e'|p]]; simpl.
    + by intros [= ->].
    + destruct (build_archive p command false image (items s mounts) x1)
        as [x2 [e'|archive]]; simpl; discriminate.
Qed.

(** ** The order of the calls and their flags *)

Lemma Forall_run_script_events (P : Event -> Prop) ro v lines rs :
  (forall cmd r, P (EvRunScript cmd ro v r)) ->
  Forall P (run_script_events ro v lines rs).
Proof.
  intros HP. revert rs.
  induction lines as [|c lines IH]; intros [|r rs]; simpl; auto.
Qed.


(** X7. The flags of the caller reach every dispatch unchanged, in
    [run_command] and in [run_commands]: each call of [run_script] is made
    with the caller's [return_output] and [verbose].  The builder is always
    called with [verbose=False], whatever the caller's [verbose]. *)
Theorem flags_forwarded command cli_arg cli_args mode mounts ro v image s :
  Forall (flags_ok ro v)
         (events (run_command command cli_arg mode mounts ro v image s)) /\
  Forall (flags_ok ro v)
         (events (run_commands command cli_args mode mounts ro v image s)).
Proof.
  split.
  - rewrite run_command_unfold. cbv zeta.
    destruct (temp_archive_file_enter (ext s)) as [x1 [e|p]]; simpl.
    { by repeat constructor. }
    destruct (build_archive p command false image (items s mounts) x1)
      as [x2 [e|archive]]; simpl; by repeat constructor.
  - rewrite run_commands_unfold. cbv zeta.
    destruct (temp_archive_file_enter (ext s)) as [x1 [e|p]]; simpl.
    { by repeat constructor. }
    destruct (build_archive p command false image (items s mounts) x1)
      as [x2 [e|archive]]; simpl; [by repeat constructor|].
    destruct (dispatch_loop_outcome mode ro v archive cli_args archive []
                                    (MkStore (heap s) x2))
      as (rs & -> & _).
    constructor; [done|]. constructor; [done|].
    apply Forall_app. split.
    + by apply Forall_run_script_events.
    + by repeat constructor.
Qed.

(** ** The command lines in closed form *)

Lemma spec_command_lines_last artifact recent batch i line :
  spec_command_lines artifact recent batch !! i = Some line ->
  line = match last_nonempty (take (S i) batch) with
         | Some args => artifact +:+ " -- " +:+ args
         | None => recent
         end.
Proof.
  revert recent i; induction batch as [|entry batch IH]; intros recent i.
  - destruct i; discriminate.
  - rewrite spec_command_lines_cons. cbv zeta.
    destruct i as [|i].
    + simpl. rewrite ?take_0. simpl. intros [= <-]. by destruct (truthy entry).
    + change (take (S (S i)) (entry :: batch))
        with (entry :: take (S i) batch).
      change ((?x :: ?l) !! S i) with (l !! i).
      intros Hline. rewrite (IH _ _ Hline).
      change (last_nonempty (entry :: take (S i) batch))
        with (match last_nonempty (take (S i) batch) with
              | Some args => Some args
              | None => if truthy entry then Some (text entry) else None
              end).
      destruct (last_nonempty (take (S i) batch)); [done|].
      by destruct (truthy entry).
Qed.

(** X8. The command line of each dispatch of [run_commands] is the archive
    path followed by [" -- "] and the arguments of the last non-empty entry
    among the entries up to and including its own, and the bare archive
    path when there is none. *)
Theorem run_commands_line_closed_form
    command cli_args mode mounts ro v image s archive i line :
  let o := run_commands command cli_args mode mounts ro v image s in
  built (events o) = Some archive ->
  dispatched (events o) !! i = Some line ->
  line = match last_nonempty (take (S i) cli_args) with
         | Some args => archive +:+ " -- " +:+ args
         | None => archive
         end.
Proof.
  cbv zeta. intros Hbuilt Hline.
  destruct (run_commands_dispatched _ _ _ _ _ _ _ _ _ Hbuilt)
    as (n & _ & Hd).
  rewrite Hd in Hline. apply lookup_take_Some in Hline as [Hline _].
  by apply spec_command_lines_last.
Qed.

Lemma spec_command_lines_all_nonempty artifact recent batch :
  Forall (fun entry => truthy entry = true) batch ->
  spec_command_lines artifact recent batch =
  (fun entry => artifact +:+ " -- " +:+ text entry) <$> batch.
Proof.
  intros Hall. revert recent.
  induction Hall as [|entry batch Hentry _ IH]; intros recent; [done|].
  rewrite spec_command_lines_cons, fmap_cons. cbv zeta.
  rewrite Hentry. f_equal. apply IH.
Qed.

(** X9. When every entry of the batch holds a non-empty argument string, a
    call of [run_commands] that returns has dispatched, entry by entry, the
    archive path followed by [" -- "] and the entry. *)
Theorem run_commands_all_nonempty
    command cli_args mode mounts ro v image s archive results :
  let o := run_commands command cli_args mode mounts ro v image s in
  Forall (fun entry => truthy entry = true) cli_args ->
  built (events o) = Some archive ->
  result o = inr results ->
  dispatched (events o) =
  (fun entry => archive +:+ " -- " +:+ text entry) <$> cli_args.
Proof.
  cbv zeta. intros Hall Hbuilt Hres.
  destruct (run_commands_outcome command cli_args mode mounts ro v image s)
    as [_ [(e & _ & He) | [(p & e & _ & He & _)
                          | (p & a & rs & Hev & Hlen & _ & Hout)]]];
    try congruence.
  rewrite Hres in Hout. destruct Hout as (outs & -> & Hlen' & _).
  rewrite Hev in Hbuilt |- *. simpl in Hbuilt. injection Hbuilt as ->.
  change (dispatched (run_script_events ro v
            (spec_command_lines archive archive cli_args) (inr <$> outs)
          ++ [EvTempExit p]) =
          (fun entry => archive +:+ " -- " +:+ text entry) <$> cli_args).
  rewrite dispatched_app, dispatched_run_script_events. simpl.
  rewrite app_nil_r, length_fmap, Hlen'.
  rewrite <- (spec_command_lines_length archive archive cli_args).
  rewrite take_ge by done.
  by apply spec_command_lines_all_nonempty.
Qed.

(** X10. What is built and which command lines are dispatched does not
    depend on the launch mode or on the flags: two calls of [run_commands]
    from the same store that differ in [mode], [return_output] and
    [verbose] make the same call of [build_archive] and agree on the
    command line of every dispatch that both make. *)
Theorem run_commands_lines_independent_of_mode
    command cli_args mounts image s mode1 ro1 v1 mode2 ro2 v2 :
  let o1 := run_commands command cli_args mode1 mounts ro1 v1 image s in
  let o2 := run_commands command cli_args mode2 mounts ro2 v2 image s in
  builds (events o1) = builds (events o2) /\
  forall i line1 line2,
    dispatched (events o1) !! i = Some line1 ->
    dispatched (events o2) !! i = Some line2 ->
    line1 = line2.
Proof.
  cbv zeta. rewrite !run_commands_unfold. cbv zeta.
  destruct (temp_archive_file_enter (ext s)) as [x1 [e|p]]; simpl.
  { split; [done|]. intros i l1 l2. by rewrite lookup_nil. }
  destruct (build_archive p command false image (items s mounts) x1)
    as [x2 [e|archive]]; simpl.
  { split; [done|]. intros i l1 l2. by rewrite lookup_nil. }
  destruct (dispatch_loop_outcome mode1 ro1 v1 archive cli_args archive []
                                  (MkStore (heap s) x2)) as (rs1 & -> & _).
  destruct (dispatch_loop_outcome mode2 ro2 v2 archive cli_args archive []
                                  (MkStore (heap s) x2)) as (rs2 & -> & _).
  split.
  - unfold builds. simpl. f_equal. rewrite !List.filter_app. simpl.
    fold (builds (run_script_events ro1 v1
                    (spec_command_lines archive archive cli_args) rs1)).
    fold (builds (run_script_events ro2 v2
                    (spec_command_lines archive archive cli_args) rs2)).
    by rewrite !builds_run_script_events.
  - intros i line1 line2.
    change (dispatched (run_script_events ro1 v1
              (spec_command_lines archive archive cli_args) rs1
            ++ [EvTempExit p]) !! i = Some line1 ->
            dispatched (run_script_events ro2 v2
              (spec_command_lines archive archive cli_args) rs2
            ++ [EvTempExit p]) !! i = Some line2 -> line1 = line2).
    rewrite !dispatched_app, !dispatched_run_script_events. simpl.
    rewrite !app_nil_r.
    intros [H1 _]%lookup_take_Some [H2 _]%lookup_take_Some. congruence.
Qed.

(** ** The paths derived by [run_python] *)

Lemma rsplit_sep_tail_no_sep p : no_sep (rsplit_sep p).2 = true.
Proof.
  induction p as [|c rest IH]; [done|]. simpl.
  destruct (rsplit_sep rest) as [[|h0 h] t]; simpl in *.
  - destruct (Ascii.eqb c "/") eqn:Hc; simpl; [done|]. by rewrite Hc.
  - done.
Qed.


Lemma no_sep_startswith_sep p : no_sep p = true -> startswith_sep p = false.
Proof.
  destruct p as [|c rest]; [done|]. simpl.
  destruct (Ascii.eqb_spec c "/") as [->|Hc]; [discriminate|].
  intros _. destruct c as [[] [] [] [] [] [] [] []]; try done.
Qed.

Lemma basename_no_sep p : no_sep (os_path.basename p) = true.
Proof. apply rsplit_sep_tail_no_sep. Qed.

(** Joining with a component that has no slash appends it, after a slash
    or after nothing. *)
Lemma join_no_sep a b :
  no_sep b = true ->
  exists sep, is_joint sep /\ os_path.join a b = a +:+ sep +:+ b.
Proof.
  intros Hb. unfold os_path.join. rewrite (no_sep_startswith_sep _ Hb).
  destruct (negb (truthy (Some a)) || endswith_sep a).
  - exists "". split; [by left | done].
  - exists "/". split; [by right | done].
Qed.


(** X11. [run_python] forms its two paths by appending: the mount point
    is [target_mount_dir], a slash or nothing, and the base name of the
    script's directory; the path in the command is the mount point, a slash
    or nothing, and the base name of the script.  Neither base name has a
    slash, so [os.path.join] never takes the branch that drops what comes
    before an absolute component.  (A base name can still be [..]: the
    paths are appended to [target_mount_dir], not confined to it.)  Once
    the scope is entered the archive is built with exactly these paths. *)
Theorem run_python_paths_appended
    target target_mount_dir mounts image run_multiple kwargs s :
  let o := run_python target target_mount_dir mounts image
                      run_multiple kwargs s in
  let dir_name := os_path.basename (os_path.dirname target) in
  let file_name := os_path.basename target in
  let entered := temp_archive_file_enter (ext s) in
  no_sep dir_name = true /\ no_sep file_name = true /\
  exists sep1 sep2,
    is_joint sep1 /\ is_joint sep2 /\
    let mount_dir := target_mount_dir +:+ sep1 +:+ dir_name in
    let command := "python" +:+ " " +:+ mount_dir +:+ sep2 +:+ file_name in
    let mounts' := items s mounts ++
                   [MountLocal (os_path.dirname target) mount_dir] in
    os_path.join target_mount_dir dir_name = mount_dir /\
    os_path.join mount_dir file_name = mount_dir +:+ sep2 +:+ file_name /\
    forall archive_file,
      entered.2 = inr archive_file ->
      builds (events o) =
        [EvBuild archive_file command false image mounts'
                 (build_archive archive_file command false image mounts'
                                entered.1).2].
Proof.
  cbv zeta.
  split; [apply basename_no_sep|]. split; [apply basename_no_sep|].
  destruct (join_no_sep target_mount_dir
              (os_path.basename (os_path.dirname target))
              (basename_no_sep _)) as (sep1 & Hsep1 & Hjoin1).
  destruct (join_no_sep (os_path.join target_mount_dir
                           (os_path.basename (os_path.dirname target)))
              (os_path.basename target)
              (basename_no_sep _)) as (sep2 & Hsep2 & Hjoin2).
  exists sep1, sep2. split; [done|]. split; [done|].
  rewrite <- Hjoin1. split; [done|]. split; [done|].
  rewrite <- Hjoin2. intros archive_file Henter.
  by apply run_python_builds_entered.
Qed.


(** X13. Without [cli_args] among the keyword arguments, [run_python]
    dispatches the bare archive path once, whether [run_multiple] is set or
    not; with [run_multiple] set a call that returns gives a list of one
    result. *)
Theorem run_python_without_cli_args
    target target_mount_dir mounts image s
    (kwargs_many : Kwargs (LaunchMode Env) (list (option string)))
    (kwargs_one : Kwargs (LaunchMode Env) (option string)) archive :
  let o_many := run_python target target_mount_dir mounts image
                           true kwargs_many s in
  let o_one := run_python target target_mount_dir mounts image
                          false kwargs_one s in
  (kw_cli_args kwargs_many = None ->
   built (events o_many) = Some archive ->
   dispatched (events o_many) = [archive] /\
   forall results : list (option string),
     result o_many = inr results -> length results = 1) /\
  (kw_cli_args kwargs_one = None ->
   built (events o_one) = Some archive ->
   dispatched (events o_one) = [archive]).
Proof.
  cbv zeta.
  destruct (run_python_outcome target target_mount_dir mounts image s)
    as (mounts' & s' & _ & _ & _ & _ & Hmany & Hone).
  split.
  - rewrite (Hmany kwargs_many). unfold run_commands_kwargs.
    intros -> Hbuilt. simpl in *.
    revert Hbuilt. rewrite run_commands_unfold. cbv zeta.
    destruct (temp_archive_file_enter (ext s')) as [x1 [e|p]]; simpl;
      [discriminate|].
    destruct (build_archive p _ false image (items s' mounts') x1)
      as [x2 [e|a]]; simpl; [discriminate|].
    intros [= ->]. unfold bind, call_run_script, call. simpl.
    destruct (run_script _ archive _ _ x2) as [x3 [e|out]]; simpl.
    + split; [done|]. discriminate.
    + split; [done|]. intros results [= <-].
      by destruct (default false (kw_return_output kwargs_many)).
  - rewrite (Hone kwargs_one). unfold run_command_kwargs.
    intros -> Hbuilt. simpl in *.
    revert Hbuilt. rewrite run_command_unfold. cbv zeta.
    destruct (temp_archive_file_enter (ext s')) as [x1 [e|p]]; simpl;
      [discriminate|].
    destruct (build_archive p _ false image (items s' mounts') x1)
      as [x2 [e|a]]; simpl; [discriminate|].
    by intros [= ->].
Qed.

(** ** Bounds and release for every outcome *)

(** X14. Whatever happens, [run_commands] calls [build_archive] at most
    once and makes at most one dispatch per entry of the batch;
    [run_command] calls [build_archive] at most once and dispatches at most
    once. *)
Theorem calls_bounded command cli_arg cli_args mode mounts ro v image s :
  let o1 := run_command command cli_arg mode mounts ro v image s in
  let o2 := run_commands command cli_args mode mounts ro v image s in
  (length (builds (events o1)) <= 1 /\ length (dispatched (events o1)) <= 1) /\
  (length (builds (events o2)) <= 1 /\
   length (dispatched (events o2)) <= length cli_args).
Proof.
  cbv zeta. split.
  - destruct (run_command_outcome command cli_arg mode mounts ro v image s)
      as [_ [(e & -> & _) | [(p & e & -> & _) | (p & a & x & r & -> & _)]]];
      simpl; lia.
  - split.
    + destruct (run_commands_builds command cli_args mode mounts ro v image s)
        as [-> | (p & r & ->)]; simpl; lia.
    + destruct (run_commands_outcome command cli_args mode mounts ro v image s)
        as [_ [(e & -> & _) | [(p & e & -> & _)
                              | (p & a & rs & -> & Hlen & _)]]];
        simpl; try lia.
      change (length (dispatched (run_script_events ro v
                (spec_command_lines a a cli_args) rs ++ [EvTempExit p])) <=
              length cli_args).
      rewrite dispatched_app, dispatched_run_script_events. simpl.
      rewrite app_nil_r, length_take. lia.
Qed.


End more_proofs.

(** ** The embedding and the theorems at concrete collaborators *)

Import Demo.

Example dirname_basename_hello :
  os_path.dirname "/home/user/proj/hello.py" = "/home/user/proj" /\
  os_path.basename "/home/user/proj/hello.py" = "hello.py" /\
  os_path.dirname "hello.py" = "" /\
  os_path.dirname "/hello.py" = "/" /\
  os_path.dirname "a//b" = "a".
Proof. repeat split. Qed.

Example join_cases :
  os_path.join "target" "proj" = "target/proj" /\
  os_path.join "target/" "proj" = "target/proj" /\
  os_path.join "" "proj" = "proj" /\
  os_path.join "target" "" = "target/" /\
  os_path.join "target" "/abs" = "/abs".
Proof. repeat split. Qed.

Example py_format_arity :
  py_format "%s %s" ["python"; "a.py"] = inr "python a.py" /\
  py_format "%s %s" ["python"] =
    inl (Raised "TypeError" "not enough arguments for format string").
Proof. split; reflexivity. Qed.

Example make_python_command_empty_inputs :
  make_python_command "" "" = inr " ".
Proof. reflexivity. Qed.

(** An empty entry after a non-empty one repeats the arguments of the
    entry before it; before any non-empty entry it runs the bare archive. *)
Example run_commands_batch_lines :
  dispatched (events (run_commands "echo hi" batch LocalMode 1%positive
                                   true false "ubuntu:18.04" store0)) =
  ["/tmp/doodad.dar"; "/tmp/doodad.dar -- a b"; "/tmp/doodad.dar -- a b";
   "/tmp/doodad.dar -- a b"; "/tmp/doodad.dar -- c"].
Proof. reflexivity. Qed.

Example run_commands_stops_at_failure :
  let o := run_commands "echo hi" batch (FailsAt 1) 1%positive true false
                        "ubuntu:18.04" store0 in
  dispatched (events o) = ["/tmp/doodad.dar"; "/tmp/doodad.dar -- a b"] /\
  result o = inl (Raised "CalledProcessError" "/tmp/doodad.dar -- a b") /\
  elements (fs (ext (final o))) = [].
Proof. repeat split. Qed.

Example run_python_hello :
  let o := run_python "/home/user/proj/hello.py" "target" 1%positive "python:3"
                      true no_kwargs store0 in
  builds (events o) =
    [EvBuild "/tmp/doodad.dar" "python target/proj/hello.py" false "python:3"
             [MountLocal "/data" "data";
              MountLocal "/home/user/proj" "target/proj"]
             (inr "/tmp/doodad.dar")] /\
  dispatched (events o) = ["/tmp/doodad.dar"] /\
  result o = inr [None].
Proof. repeat split. Qed.

Lemma run_commands_composition_rule_witness :
  let o := run_commands "echo hi" batch LocalMode 1%positive true false
                        "ubuntu:18.04" store0 in
  built (events o) = Some "/tmp/doodad.dar" /\
  dispatched (events o) !! 2 = Some "/tmp/doodad.dar -- a b" /\
  exists entry,
    batch !! 2 = Some entry /\
    match entry with
    | Some (String c rest) =>
        "/tmp/doodad.dar -- a b" = "/tmp/doodad.dar" +:+ " -- " +:+ String c rest
    | _ => dispatched (events o) !! 1 = Some "/tmp/doodad.dar -- a b"
    end.
Proof.
  cbv zeta. split; [reflexivity|]. split; [reflexivity|].
  apply (run_commands_composition_rule "echo hi" batch LocalMode 1%positive
           true false "ubuntu:18.04" store0 "/tmp/doodad.dar" 2
           "/tmp/doodad.dar -- a b"); reflexivity.
Defined.

Lemma run_commands_leading_empty_entries_witness :
  let cli_args := [None; Some ""; Some "a b"; None] in
  let o := run_commands "echo hi" cli_args LocalMode 1%positive true false
                        "ubuntu:18.04" store0 in
  built (events o) = Some "/tmp/doodad.dar" /\
  dispatched (events o) !! 1 = Some "/tmp/doodad.dar" /\
  "/tmp/doodad.dar" = "/tmp/doodad.dar".
Proof.
  cbv zeta. split; [reflexivity|]. split; [reflexivity|].
  apply (run_commands_leading_empty_entries "echo hi"
           [None; Some ""; Some "a b"; None] LocalMode 1%positive
           true false "ubuntu:18.04" store0 "/tmp/doodad.dar" 1
           "/tmp/doodad.dar"); [reflexivity | reflexivity |].
  intros j entry Hj. destruct j as [|[|j]]; simpl.
  - intros [= <-]. by left.
  - intros [= <-]. by right.
  - lia.
Defined.


Lemma run_command_one_build_one_dispatch_witness :
  let o := run_command "echo hi" (Some "a b") FailingMode 1%positive true false
                       "ubuntu:18.04" store0 in
  built (events o) = Some "/tmp/doodad.dar" /\
  dispatch_results (events o) =
    [inl (Raised "CalledProcessError" "/tmp/doodad.dar -- a b")] /\
  exists archive_file x,
    x = (build_archive archive_file "echo hi" false "ubuntu:18.04"
                       (items store0 1%positive)
                       (temp_archive_file_enter (ext store0)).1).1 /\
    events o =
      [EvTempEnter (inr archive_file);
       EvBuild archive_file "echo hi" false "ubuntu:18.04"
               (items store0 1%positive) (inr "/tmp/doodad.dar");
       EvRunScript "/tmp/doodad.dar -- a b" true false
                   (inl (Raised "CalledProcessError" "/tmp/doodad.dar -- a b"));
       EvTempExit archive_file] /\
    length (builds (events o)) = 1 /\
    length (dispatched (events o)) = 1.
Proof.
  cbv zeta. split; [reflexivity|]. split; [reflexivity|].
  apply (run_command_one_build_one_dispatch "echo hi" (Some "a b") FailingMode
           1%positive true false "ubuntu:18.04" store0 "/tmp/doodad.dar").
  reflexivity.
Defined.



Lemma run_python_derives_mount_and_delegates_witness :
  let o := run_python "/home/user/proj/hello.py" "target" 1%positive "python:3"
                      true
                      (MkKwargs (Some [Some "--n 1"; None]) None (Some true) None)
                      store0 in
  let derived := MountLocal "/home/user/proj" "target/proj" in
  (temp_archive_file_enter (ext store0)).2 = inr "/tmp/doodad.dar" /\
  builds (events o) =
    [EvBuild "/tmp/doodad.dar" "python target/proj/hello.py" false "python:3"
             [MountLocal "/data" "data"; derived] (inr "/tmp/doodad.dar")] /\
  events o =
    [EvTempEnter (inr "/tmp/doodad.dar");
     EvBuild "/tmp/doodad.dar" "python target/proj/hello.py" false "python:3"
             [MountLocal "/data" "data"; derived] (inr "/tmp/doodad.dar");
     EvRunScript "/tmp/doodad.dar -- --n 1" true false
                 (inr (Some "#/tmp/doodad.dar -- --n 1"));
     EvRunScript "/tmp/doodad.dar -- --n 1" true false
                 (inr (Some "#/tmp/doodad.dar -- --n 1"));
     EvTempExit "/tmp/doodad.dar"] /\
  result o = inr [Some "/tmp/doodad.dar -- --n 1";
                  Some "/tmp/doodad.dar -- --n 1"].
Proof.
  cbv zeta. split; [reflexivity|]. split; [|split; reflexivity].
  exact (proj1 (proj2 (run_python_derives_mount_and_delegates
                         "/home/user/proj/hello.py" "target" 1%positive
                         "python:3" store0))
           true
           (MkKwargs (Some [Some "--n 1"; None]) None (Some true) None)
           "/tmp/doodad.dar" eq_refl).
Defined.

Lemma temp_archive_file_released_witness :
  let o1 := run_command "echo hi" None FailingMode 1%positive true false
                        "ubuntu:18.04" store0 in
  let o2 := run_commands "echo hi" batch (FailsAt 2) 1%positive true false
                         "ubuntu:18.04" store0 in
  (temp_path (events o1) = Some "/tmp/doodad.dar" /\
   "/tmp/doodad.dar" ∉ fs (ext (final o1))) /\
  (temp_path (events o2) = Some "/tmp/doodad.dar" /\
   "/tmp/doodad.dar" ∉ fs (ext (final o2))).
Proof.
  cbv zeta. split.
  - split; [reflexivity|].
    apply (temp_archive_file_released "echo hi" None batch FailingMode
             1%positive true false "ubuntu:18.04" store0 "/tmp/doodad.dar").
    reflexivity.
  - split; [reflexivity|].
    apply (temp_archive_file_released "echo hi" None batch (FailsAt 2)
             1%positive true false "ubuntu:18.04" store0 "/tmp/doodad.dar").
    reflexivity.
Defined.

Lemma run_commands_failure_propagates_witness :
  let o := run_commands "echo hi" batch (FailsAt 2) 1%positive true false
                        "ubuntu:18.04" store0 in
  let e := Raised "CalledProcessError" "/tmp/doodad.dar -- a b" in
  dispatch_results (events o) !! 2 = Some (inl e) /\
  result o = inl e /\
  length (dispatch_results (events o)) = 3 /\
  length (dispatched (events o)) = 3.
Proof.
  cbv zeta. split; [reflexivity|].
  apply (run_commands_failure_propagates "echo hi" batch (FailsAt 2) 1%positive
           true false "ubuntu:18.04" store0 2
           (Raised "CalledProcessError" "/tmp/doodad.dar -- a b")).
  reflexivity.
Defined.

Lemma run_python_keeps_caller_mounts_witness :
  let o := run_python "/home/user/proj/hello.py" "target" 1%positive "python:3"
                      true no_kwargs store0 in
  let ms := [MountLocal "/data" "data"] in
  heap store0 !! 1%positive = Some ms /\
  heap (final o) !! 1%positive = Some ms /\
  (forall l xs, heap store0 !! l = Some xs -> heap (final o) !! l = Some xs) /\
  exists mounts',
    mounts' <> 1%positive /\
    heap (final o) !! mounts' =
      Some (ms ++ [MountLocal "/home/user/proj" "target/proj"]).
Proof.
  cbv zeta. split; [reflexivity|].
  apply (run_python_keeps_caller_mounts "/home/user/proj/hello.py" "target"
           1%positive "python:3" true no_kwargs store0
           [MountLocal "/data" "data"]).
  reflexivity.
Defined.

(** ** The further properties at concrete collaborators *)

Lemma run_commands_empty_batch_witness :
  let o := run_commands "echo hi" [] LocalMode 1%positive true false
                        "ubuntu:18.04" store0 in
  built (events o) = Some "/tmp/doodad.dar" /\
  result o = inr [] /\
  exists archive_file,
    events o = [EvTempEnter (inr archive_file);
                EvBuild archive_file "echo hi" false "ubuntu:18.04"
                        (items store0 1%positive) (inr "/tmp/doodad.dar");
                EvTempExit archive_file].
Proof.
  cbv zeta. split; [reflexivity|].
  apply (run_commands_empty_batch "echo hi" LocalMode 1%positive true false
           "ubuntu:18.04" store0). reflexivity.
Defined.

Lemma build_failure_propagates_witness :
  let o1 := run_command (Collaborators0 := DemoFailures.broken_builder)
              "echo hi" (Some "a b") LocalMode 1%positive true false
              "ubuntu:18.04" store0 in
  let o2 := run_commands (Collaborators0 := DemoFailures.broken_builder)
              "echo hi" batch LocalMode 1%positive true false
              "ubuntu:18.04" store0 in
  let e := Raised "OSError" "/tmp/doodad.dar" in
  let ev := EvBuild "/tmp/doodad.dar" "echo hi" false "ubuntu:18.04"
                    [MountLocal "/data" "data"] (inl e) in
  (ev ∈ events o1 /\
   result o1 = inl e /\ dispatched (events o1) = [] /\
   last (events o1) = Some (EvTempExit "/tmp/doodad.dar")) /\
  (ev ∈ events o2 /\
   result o2 = inl e /\ dispatched (events o2) = [] /\
   last (events o2) = Some (EvTempExit "/tmp/doodad.dar")).
Proof.
  cbv zeta.
  pose proof (build_failure_propagates
                (Collaborators0 := DemoFailures.broken_builder)
                "echo hi" (Some "a b") batch LocalMode 1%positive true false
                "ubuntu:18.04" store0 (Raised "OSError" "/tmp/doodad.dar"))
    as [H1 H2].
  split.
  - assert (Hin : EvBuild "/tmp/doodad.dar" "echo hi" false "ubuntu:18.04"
                    [MountLocal "/data" "data"]
                    (inl (Raised "OSError" "/tmp/doodad.dar")) ∈
                  events (run_command
                            (Collaborators0 := DemoFailures.broken_builder)
                            "echo hi" (Some "a b") LocalMode 1%positive
                            true false "ubuntu:18.04" store0)).
    { apply (list_elem_of_lookup_2 _ 1). reflexivity. }
    split; [exact Hin|]. exact (H1 _ _ _ _ _ Hin).
  - assert (Hin : EvBuild "/tmp/doodad.dar" "echo hi" false "ubuntu:18.04"
                    [MountLocal "/data" "data"]
                    (inl (Raised "OSError" "/tmp/doodad.dar")) ∈
                  events (run_commands
                            (Collaborators0 := DemoFailures.broken_builder)
                            "echo hi" batch LocalMode 1%positive
                            true false "ubuntu:18.04" store0)).
    { apply (list_elem_of_lookup_2 _ 1). reflexivity. }
    split; [exact Hin|]. exact (H2 _ _ _ _ _ Hin).
Defined.

Lemma enter_failure_stops_witness :
  let o1 := run_command (Collaborators0 := DemoFailures.no_temp)
              "echo hi" (Some "a b") LocalMode 1%positive true false
              "ubuntu:18.04" store0 in
  let o2 := run_commands (Collaborators0 := DemoFailures.no_temp)
              "echo hi" batch LocalMode 1%positive true false
              "ubuntu:18.04" store0 in
  let e := Raised "OSError" "no temporary file" in
  (events o1 !! 0 = Some (EvTempEnter (inl e)) /\
   events o1 = [EvTempEnter (inl e)] /\ result o1 = inl e /\
   heap (final o1) = heap store0) /\
  (events o2 !! 0 = Some (EvTempEnter (inl e)) /\
   events o2 = [EvTempEnter (inl e)] /\ result o2 = inl e /\
   heap (final o2) = heap store0).
Proof.
  cbv zeta.
  pose proof (enter_failure_stops (Collaborators0 := DemoFailures.no_temp)
                "echo hi" (Some "a b") batch LocalMode 1%positive true false
                "ubuntu:18.04" store0 (Raised "OSError" "no temporary file"))
    as [H1 H2].
  split.
  - split; [reflexivity|]. apply H1. reflexivity.
  - split; [reflexivity|]. apply H2. reflexivity.
Defined.

Lemma run_commands_line_closed_form_witness :
  let o := run_commands "echo hi" batch LocalMode 1%positive true false
                        "ubuntu:18.04" store0 in
  built (events o) = Some "/tmp/doodad.dar" /\
  dispatched (events o) !! 3 = Some "/tmp/doodad.dar -- a b" /\
  "/tmp/doodad.dar -- a b" =
    match last_nonempty (take 4 batch) with
    | Some args => "/tmp/doodad.dar" +:+ " -- " +:+ args
    | None => "/tmp/doodad.dar"
    end.
Proof.
  cbv zeta. split; [reflexivity|]. split; [reflexivity|].
  apply (run_commands_line_closed_form "echo hi" batch LocalMode 1%positive
           true false "ubuntu:18.04" store0 "/tmp/doodad.dar" 3
           "/tmp/doodad.dar -- a b"); reflexivity.
Defined.

Lemma run_commands_all_nonempty_witness :
  let cli_args := [Some "a"; Some "b"] in
  let o := run_commands "echo X" cli_args LocalMode 1%positive true false
                        "ubuntu:18.04" store0 in
  Forall (fun entry => truthy entry = true) cli_args /\
  built (events o) = Some "/tmp/doodad.dar" /\
  result o = inr [Some "/tmp/doodad.dar -- a"; Some "/tmp/doodad.dar -- b"] /\
  dispatched (events o) =
    (fun entry => "/tmp/doodad.dar" +:+ " -- " +:+ text entry) <$> cli_args.
Proof.
  cbv zeta.
  assert (Hall : Forall (fun entry => truthy entry = true)
                        [Some "a"; Some "b"])
    by (repeat constructor).
  split; [exact Hall|]. split; [reflexivity|]. split; [reflexivity|].
  apply (run_commands_all_nonempty "echo X" [Some "a"; Some "b"] LocalMode
           1%positive true false "ubuntu:18.04" store0 "/tmp/doodad.dar"
           [Some "/tmp/doodad.dar -- a"; Some "/tmp/doodad.dar -- b"] Hall);
    reflexivity.
Defined.

Lemma run_commands_lines_independent_of_mode_witness :
  let o1 := run_commands "echo hi" batch LocalMode 1%positive true false
                         "ubuntu:18.04" store0 in
  let o2 := run_commands "echo hi" batch (FailsAt 3) 1%positive false true
                         "ubuntu:18.04" store0 in
  dispatched (events o1) !! 2 = Some "/tmp/doodad.dar -- a b" /\
  dispatched (events o2) !! 2 = Some "/tmp/doodad.dar -- a b" /\
  builds (events o1) = builds (events o2) /\
  "/tmp/doodad.dar -- a b" = "/tmp/doodad.dar -- a b".
Proof.
  cbv zeta.
  pose proof (run_commands_lines_independent_of_mode "echo hi" batch
                1%positive "ubuntu:18.04" store0 LocalMode true false
                (FailsAt 3) false true) as [Hbuilds Hlines].
  split; [reflexivity|]. split; [reflexivity|]. split; [exact Hbuilds|].
  exact (Hlines 2 _ _ eq_refl eq_refl).
Defined.

Lemma run_python_paths_appended_witness :
  let o := run_python "../hello.py" "target" 1%positive "python:3"
                      false no_kwargs store0 in
  (temp_archive_file_enter (ext store0)).2 = inr "/tmp/doodad.dar" /\
  os_path.join "target" (os_path.basename (os_path.dirname "../hello.py")) =
    "target/.." /\
  builds (events o) =
    [EvBuild "/tmp/doodad.dar" "python target/../hello.py" false "python:3"
             [MountLocal "/data" "data"; MountLocal ".." "target/.."]
             (inr "/tmp/doodad.dar")].
Proof.
  cbv zeta. split; [reflexivity|]. split; [reflexivity|].
  destruct (run_python_paths_appended "../hello.py" "target" 1%positive
              "python:3" false no_kwargs store0)
    as (_ & _ & sep1 & sep2 & _ & _ & Hjoin1 & Hjoin2 & Hbuilds).
  cbv zeta in Hjoin1, Hjoin2, Hbuilds.
  rewrite (Hbuilds "/tmp/doodad.dar" eq_refl).
  rewrite <- Hjoin2, <- Hjoin1. reflexivity.
Defined.


Lemma run_python_without_cli_args_witness :
  let o_many := run_python "/home/user/proj/hello.py" "target" 1%positive
                           "python:3" true no_kwargs store0 in
  let o_one := run_python "/home/user/proj/hello.py" "target" 1%positive
                          "python:3" false no_kwargs store0 in
  built (events o_many) = Some "/tmp/doodad.dar" /\
  built (events o_one) = Some "/tmp/doodad.dar" /\
  (dispatched (events o_many) = ["/tmp/doodad.dar"] /\
   forall results : list (option string),
     result o_many = inr results -> length results = 1) /\
  dispatched (events o_one) = ["/tmp/doodad.dar"].
Proof.
  cbv zeta.
  pose proof (run_python_without_cli_args "/home/user/proj/hello.py" "target"
                1%positive "python:3" store0 no_kwargs no_kwargs
                "/tmp/doodad.dar") as [H1 H2].
  split; [reflexivity|]. split; [reflexivity|].
  split; [apply H1; reflexivity | apply H2; reflexivity].
Defined.

